(** * AQPython: annotation property codec and text hydration

    A shallow embedding of [AQPython/Utilities.py]: the three row-level
    functions [GetAQProperties] (property decoder), [GetCATProperties]
    (property encoder) and [HydrateText] (text hydrator), with the Python
    primitives they are written in.

    - A Python [str] is a [string]; one [ascii] stands for one character.
    - A Python [int] is a [Z].
    - A Python [dict] is an association list in insertion order.
    - A raised exception is the [Raise] case of [result].
    - The file system read and written by [HydrateText] is an explicit
      state. *)

From Stdlib Require Import Bool Ascii String List ZArith Lia Permutation Sorted.
Import ListNotations.

Open Scope string_scope.
Open Scope list_scope.
Open Scope Z_scope.

(** ** Exceptions *)

Inductive exn : Type :=
| IndexError
| ValueError
| OSError.

Inductive result (A : Type) : Type :=
| Ok (a : A)
| Raise (e : exn).

Arguments Ok {A} a.
Arguments Raise {A} e.

Definition bind {A B : Type} (r : result A) (k : A -> result B) : result B :=
  match r with
  | Ok a => k a
  | Raise e => Raise e
  end.

Notation "x <- c1 ;; c2" := (bind c1 (fun x => c2))
  (at level 61, c1 at next level, right associativity).

(** A [for] loop whose body may raise: the first exception ends the loop. *)
Fixpoint foldM {A S : Type} (body : S -> A -> result S) (l : list A) (st : S)
  : result S :=
  match l with
  | [] => Ok st
  | x :: rest => st' <- body st x ;; foldM body rest st'
  end.

(** ** Python primitives *)

Module Py.

(** [x in l] for a list of strings. *)
Fixpoint mem (x : string) (l : list string) : bool :=
  match l with
  | [] => false
  | y :: rest => String.eqb x y || mem x rest
  end.

(** [c in s] for a single character [c]. *)
Fixpoint has_char (c : ascii) (s : string) : bool :=
  match s with
  | EmptyString => false
  | String d rest => Ascii.eqb d c || has_char c rest
  end.

(** [s.count(c)] for a single character [c]. *)
Fixpoint count_char (c : ascii) (s : string) : nat :=
  match s with
  | EmptyString => O
  | String d rest => if Ascii.eqb d c then S (count_char c rest) else count_char c rest
  end.

(** [s.split(sep)] for a one-character separator: never the empty list. *)
Fixpoint split (sep : ascii) (s : string) : list string :=
  match s with
  | EmptyString => [EmptyString]
  | String c rest =>
      if Ascii.eqb c sep then EmptyString :: split sep rest
      else match split sep rest with
           | [] => [String c EmptyString]
           | tok :: toks => String c tok :: toks
           end
  end.

(** [sep.join(l)]. *)
Fixpoint join (sep : string) (l : list string) : string :=
  match l with
  | [] => EmptyString
  | [x] => x
  | x :: rest => x ++ sep ++ join sep rest
  end.

(** [l[i]]: an index past the end raises [IndexError]. *)
Definition get {A : Type} (l : list A) (i : nat) : result A :=
  match nth_error l i with
  | Some x => Ok x
  | None => Raise IndexError
  end.

(** A slice bound as Python normalises it against a sequence of length [n]:
    a negative bound counts from the end, and both are clipped to [0..n]. *)
Definition clip (n i : Z) : Z :=
  if i <? 0 then Z.max (i + n) 0 else Z.min i n.

(** [s[a:b]]. *)
Definition slice (s : string) (a b : Z) : string :=
  let n := Z.of_nat (String.length s) in
  let lo := clip n a in
  let hi := clip n b in
  substring (Z.to_nat lo) (Z.to_nat (hi - lo)) s.

(** Characters that [int()] strips from both ends (Python's white space
    among the characters below 256). *)
Definition is_space (c : ascii) : bool :=
  let n := nat_of_ascii c in
  ((9 <=? n) && (n <=? 13) || (28 <=? n) && (n <=? 32)
   || (n =? 133) || (n =? 160))%nat.

Definition digit_value (c : ascii) : option Z :=
  let n := nat_of_ascii c in
  if ((48 <=? n) && (n <=? 57))%nat then Some (Z.of_nat (n - 48)) else None.

Fixpoint lstrip (s : string) : string :=
  match s with
  | EmptyString => EmptyString
  | String c rest => if is_space c then lstrip rest else s
  end.

Fixpoint rstrip (s : string) : string :=
  match s with
  | EmptyString => EmptyString
  | String c rest =>
      match rstrip rest with
      | EmptyString => if is_space c then EmptyString else String c EmptyString
      | r => String c r
      end
  end.

(** The digits of a decimal literal, after its first digit: digits, each
    optionally preceded by one underscore. [acc] is the value read so far. *)
Fixpoint digits_tail (s : string) (acc : Z) : option Z :=
  match s with
  | EmptyString => Some acc
  | String c rest =>
      if Ascii.eqb c "_" then
        match rest with
        | EmptyString => None
        | String d rest' =>
            match digit_value d with
            | Some v => digits_tail rest' (10 * acc + v)
            | None => None
            end
        end
      else
        match digit_value c with
        | Some v => digits_tail rest (10 * acc + v)
        | None => None
        end
  end.

Definition digits (s : string) : option Z :=
  match s with
  | EmptyString => None
  | String c rest =>
      match digit_value c with
      | Some v => digits_tail rest v
      | None => None
      end
  end.

(** [int(s)] in base ten: white space around, an optional sign, then decimal
    digits with single underscores between them; anything else raises
    [ValueError]. The interpreter's bound on the number of digits is left
    out. *)
Definition int (s : string) : result Z :=
  let body := rstrip (lstrip s) in
  let signed :=
    match body with
    | String "-" rest => option_map Z.opp (digits rest)
    | String "+" rest => digits rest
    | _ => digits body
    end in
  match signed with
  | Some z => Ok z
  | None => Raise ValueError
  end.

End Py.

(** ** Dictionaries

    A [dict] keeps its keys in insertion order; assigning to a key that is
    present replaces its value in place. *)

Definition dict : Type := list (string * string).

Fixpoint dict_in (k : string) (d : dict) : bool :=
  match d with
  | [] => false
  | (k', _) :: rest => String.eqb k' k || dict_in k rest
  end.

Fixpoint dict_get (k : string) (d : dict) : option string :=
  match d with
  | [] => None
  | (k', v) :: rest => if String.eqb k' k then Some v else dict_get k rest
  end.

Fixpoint dict_set (d : dict) (k v : string) : dict :=
  match d with
  | [] => [(k, v)]
  | (k', v') :: rest =>
      if String.eqb k' k then (k', v) :: rest else (k', v') :: dict_set rest k v
  end.

(** ** Library functions

    [str.lower], [urllib.parse.quote_plus] and [urllib.parse.unquote_plus]
    belong to the Python library, not to this repository: the codec is
    written against this interface. *)

Class PyLib : Type := {
  lower : string -> string;
  quote_plus : string -> string;
  unquote_plus : string -> string
}.

(** What the round trip needs of the library: percent-decoding undoes
    percent-encoding, and an encoded value holds neither delimiter
    ([quote_plus] leaves letters, digits and [_.-~], writes a space as [+]
    and every other byte as [%XX]). *)
Class PyLibLaws (L : PyLib) : Prop := {
  unquote_quote : forall s, unquote_plus (quote_plus s) = s;
  quote_plus_no_amp : forall s, Py.has_char "&" (quote_plus s) = false;
  quote_plus_no_eq : forall s, Py.has_char "=" (quote_plus s) = false
}.

(** ** Module constants *)

Definition _ORIG : string := "orig".
Definition _ORIG_ANNOT_ID : string := "origAnnotID".
Definition _PARENT_ID : string := "parentId".
Definition _ATTR : string := "attr".
Definition _OM_NON_ATTRIBUTE_PROPERTIES : list string :=
  [_ORIG; _ORIG_ANNOT_ID; _PARENT_ID].
Definition _OM_ANNOT_SET : string := "om".
Definition _WILDCARD : string := "*".

(** ** The property decoder, [GetAQProperties] *)

Section Codec.
Context {L : PyLib}.

(** The value stored for a kept key: percent-decoded when the key or the
    wildcard is in [decodeProps], then lower-cased when the key or the
    wildcard is in [lcProps]. *)
Definition processed (lcProps decodeProps : list string) (key value : string)
  : string :=
  let value :=
    if Py.mem key decodeProps || Py.mem _WILDCARD decodeProps
    then unquote_plus value else value in
  if Py.mem key lcProps || Py.mem _WILDCARD lcProps
  then lower value else value.

(** A kept token goes to the attribute buffer, not to the map. *)
Definition to_attr_bag (annotSet : string) (props : list string) (key : string)
  : bool :=
  Py.mem _WILDCARD props
  && String.eqb (lower annotSet) _OM_ANNOT_SET
  && negb (Py.mem key _OM_NON_ATTRIBUTE_PROPERTIES).

(** The body of the loop over [otherToks]; the state is
    [(propsMap, attrBuf)]. *)
Definition decode_tok (annotSet : string) (props lcProps decodeProps : list string)
    (st : dict * list string) (otherTok : string) : result (dict * list string) :=
  let '(propsMap, attrBuf) := st in
  let toks := Py.split "=" otherTok in
  if Nat.eqb (List.length toks) 2 then
    key <- Py.get toks 0 ;;
    value <- Py.get toks 1 ;;
    if Py.mem key props || Py.mem _WILDCARD props then
      let value := processed lcProps decodeProps key value in
      if to_attr_bag annotSet props key
      then Ok (propsMap, attrBuf ++ [otherTok])
      else Ok (dict_set propsMap key value, attrBuf)
    else if Py.mem _ATTR props && String.eqb (lower annotSet) _OM_ANNOT_SET then
      if negb (Py.mem key _OM_NON_ATTRIBUTE_PROPERTIES)
      then Ok (propsMap, attrBuf ++ [otherTok])
      else Ok (propsMap, attrBuf)
    else Ok (propsMap, attrBuf)
  else Ok (propsMap, attrBuf).

Definition decode_toks (annotSet : string) (props lcProps decodeProps : list string)
    (otherToks : list string) (st : dict * list string)
  : result (dict * list string) :=
  foldM (decode_tok annotSet props lcProps decodeProps) otherToks st.

(** [propsMap = {}] and [attrBuf = []], the state the loop starts in. *)
Definition empty_state : dict * list string := ([], []).

(** [annotSet] and [other] are strings: a row whose column is null is
    outside this function's domain here. *)
Definition GetAQProperties (annotSet other : string)
    (props lcProps decodeProps : list string) : result dict :=
  if Nat.ltb 0 (List.length props) then
    st <- decode_toks annotSet props lcProps decodeProps (Py.split "&" other) empty_state ;;
    let '(propsMap, attrBuf) := st in
    if Nat.ltb 0 (List.length attrBuf) && negb (dict_in _ATTR propsMap)
    then Ok (dict_set propsMap _ATTR (Py.join "&" attrBuf))
    else Ok propsMap
  else Ok [].

(** ** The property encoder, [GetCATProperties] *)

(** The body of the loop over the mapping; the state is [otherBuf]. The
    loop variable [prop] runs over the keys in the mapping's order and
    [properties[prop]] is the value stored with it: an entry of the
    association list. *)
Definition encode_prop (props encodeProps : list string)
    (otherBuf : list string) (entry : string * string) : list string :=
  let '(prop, value) := entry in
  if Py.mem _WILDCARD props || Py.mem prop props then
    if Py.mem _WILDCARD encodeProps || Py.mem prop encodeProps
    then otherBuf ++ [(prop ++ "=" ++ quote_plus value)%string]
    else otherBuf ++ [(prop ++ "=" ++ value)%string]
  else otherBuf.

(** [None] is Python's [None], for the argument and for the result. *)
Definition GetCATProperties (properties : option dict)
    (props encodeProps : list string) : option string :=
  match properties with
  | Some d => Some (Py.join "&" (fold_left (encode_prop props encodeProps) d []))
  | None => None
  end.

End Codec.

(** ** The text hydrator, [HydrateText] *)

(** One parsed entry of [properties['excludes']]:
    [(int(toks[0]), toks[1], toks[2], int(toks[3]), int(toks[4]))]. *)
Definition exclude : Type := Z * string * string * Z * Z.

Definition exclude_eq_dec (x y : exclude) : {x = y} + {x <> y}.
Proof. repeat decide equality; try apply string_dec; apply Z.eq_dec. Defined.

Definition pair_eq_dec (x y : Z * Z) : {x = y} + {x <> y}.
Proof. decide equality; apply Z.eq_dec. Defined.

Definition parse_exclude (excludesEntry : string) : result exclude :=
  let toks := Py.split "," excludesEntry in
  t0 <- Py.get toks 0 ;;
  kind <- Py.int t0 ;;
  a <- Py.get toks 1 ;;
  b <- Py.get toks 2 ;;
  t3 <- Py.get toks 3 ;;
  exS <- Py.int t3 ;;
  t4 <- Py.get toks 4 ;;
  exE <- Py.int t4 ;;
  Ok (kind, a, b, exS, exE).

(** The loop over [properties['excludes'].split("|")]. *)
Definition parse_excludes (value : string) : result (list exclude) :=
  foldM (fun excludes excludesEntry =>
           e <- parse_exclude excludesEntry ;; Ok (excludes ++ [e]))
        (Py.split "|" value) [].

(** The sort key [(tup[0], tup[1])], compared as Python compares tuples. *)
Definition pair_leb (p q : Z * Z) : bool :=
  (fst p <? fst q) || ((fst p =? fst q) && (snd p <=? snd q)).

Fixpoint insert_pair (p : Z * Z) (l : list (Z * Z)) : list (Z * Z) :=
  match l with
  | [] => [p]
  | q :: rest => if pair_leb p q then p :: l else q :: insert_pair p rest
  end.

Fixpoint sort_pairs (l : list (Z * Z)) : list (Z * Z) :=
  match l with
  | [] => []
  | p :: rest => insert_pair p (sort_pairs rest)
  end.

(** [exToks] as the sweep sees it: the entries without repeats, their
    offset pairs without repeats, sorted. [list(set(l))] lists the distinct
    elements of [l] in an order Python does not fix; the sort that follows
    makes the order chosen here immaterial ([exToks_order_irrelevant]). *)
Definition exToks (excludes : list exclude) : list (Z * Z) :=
  let excludes := nodup exclude_eq_dec excludes in
  let pairs := map (fun e : exclude => (snd (fst e), snd e)) excludes in
  sort_pairs (nodup pair_eq_dec pairs).

(** The body of the sweep; the state is [(text, curOffset)]. *)
Definition sweep_step (docText : string) (st : string * Z) (exTok : Z * Z)
  : string * Z :=
  let '(text, curOffset) := st in
  if fst exTok <=? curOffset then (text, snd exTok)
  else ((text ++ Py.slice docText curOffset (fst exTok))%string, snd exTok).

Definition sweep (docText : string) (startOffset : Z) (pairs : list (Z * Z))
  : string * Z :=
  fold_left (sweep_step docText) pairs (EmptyString, startOffset).

(** The text left once the excluded ranges are skipped. *)
Definition excluded_text (docText : string) (startOffset endOffset : Z)
    (pairs : list (Z * Z)) : string :=
  let '(text, curOffset) := sweep docText startOffset pairs in
  if curOffset <? endOffset
  then (text ++ Py.slice docText curOffset endOffset)%string
  else text.

(** *** The file system *)

Inductive node : Type :=
| Absent
| Text (content : string)
| Unreadable (e : exn).

Record filesystem : Type := {
  node_at : string -> node;
  writable : string -> bool
}.

(** [os.path.exists(path)]. *)
Definition path_exists (fs : filesystem) (path : string) : bool :=
  match node_at fs path with
  | Absent => false
  | _ => true
  end.

(** [io.open(path,'r',encoding='utf-8')] followed by [f.read()]. *)
Definition read_file (fs : filesystem) (path : string) : result string :=
  match node_at fs path with
  | Text content => Ok content
  | Absent => Raise OSError
  | Unreadable e => Raise e
  end.

(** [io.open(path,'w',encoding='utf-8')] followed by [f.write(content)]. *)
Definition write_file (fs : filesystem) (path content : string)
  : result filesystem :=
  if writable fs path then
    Ok {| node_at := fun p => if String.eqb p path then Text content
                              else node_at fs p;
          writable := writable fs |}
  else Raise OSError.

(** The first part of [HydrateText]: the document text, from the copy under
    [/tmp/] when there is one, else from [txtPath] with a copy written under
    [/tmp/]. Only the second branch stands inside [try]; what it catches
    leaves [docText] empty. *)
Definition read_docText (fs : filesystem) (docId txtPath : string)
  : result string * filesystem :=
  if path_exists fs ("/tmp/" ++ docId)%string then
    (read_file fs ("/tmp/" ++ docId)%string, fs)
  else
    match read_file fs (txtPath ++ docId)%string with
    | Ok docText =>
        match write_file fs ("/tmp/" ++ docId)%string docText with
        | Ok fs' => (Ok docText, fs')
        | Raise _ => (Ok EmptyString, fs)
        end
    | Raise _ => (Ok EmptyString, fs)
    end.

(** [properties != None and key in properties]. *)
Definition has_key (properties : option dict) (key : string) : bool :=
  match properties with
  | Some d => dict_in key d
  | None => false
  end.

(** The text of the annotation, the second part of [HydrateText]. *)
Definition annotation_text (docText : string) (startOffset endOffset : Z)
    (properties : option dict) (excludes : bool) : result string :=
  match properties with
  | Some d =>
      match dict_get "excludes" d with
      | Some value =>
          if excludes && Nat.ltb 0 (String.length value) then
            parsed <- parse_excludes value ;;
            Ok (excluded_text docText startOffset endOffset (exToks parsed))
          else Ok (Py.slice docText startOffset endOffset)
      | None => Ok (Py.slice docText startOffset endOffset)
      end
  | None => Ok (Py.slice docText startOffset endOffset)
  end.

Definition HydrateText (fs : filesystem) (docId : string)
    (startOffset endOffset : Z) (properties : option dict)
    (txtPath : string) (excludes : bool)
  : result (option dict) * filesystem :=
  let '(r, fs') := read_docText fs docId txtPath in
  match r with
  | Raise e => (Raise e, fs')
  | Ok docText =>
      if String.eqb docText EmptyString || has_key properties "text" then
        (Ok properties, fs')
      else
        match annotation_text docText startOffset endOffset properties excludes with
        | Raise e => (Raise e, fs')
        | Ok text =>
            match properties with
            | Some d => (Ok (Some (dict_set d "text" text)), fs')
            | None => (Ok (Some (dict_set [] "text" text)), fs')
            end
        end
  end.

(** ** The library on ASCII text

    [str.lower], [quote_plus] and [unquote_plus] as they act on ASCII
    text, character by character; the instance the examples are run with. *)

Module AsciiLib.

Definition lower_char (c : ascii) : ascii :=
  let n := nat_of_ascii c in
  if ((65 <=? n) && (n <=? 90))%nat then ascii_of_nat (n + 32) else c.

Fixpoint lower (s : string) : string :=
  match s with
  | EmptyString => EmptyString
  | String c rest => String (lower_char c) (lower rest)
  end.

(** Letters, digits and [_.-~]: the characters [quote_plus] leaves as they
    are. *)
Definition always_safe (c : ascii) : bool :=
  let n := nat_of_ascii c in
  ((65 <=? n) && (n <=? 90) || (97 <=? n) && (n <=? 122)
   || (48 <=? n) && (n <=? 57)
   || (n =? 95) || (n =? 46) || (n =? 45) || (n =? 126))%nat.

Definition hex_digit (n : nat) : ascii :=
  if (n <? 10)%nat then ascii_of_nat (48 + n) else ascii_of_nat (55 + n).

Definition hex_value (c : ascii) : option nat :=
  let n := nat_of_ascii c in
  if ((48 <=? n) && (n <=? 57))%nat then Some (n - 48)%nat
  else if ((65 <=? n) && (n <=? 70))%nat then Some (n - 55)%nat
  else if ((97 <=? n) && (n <=? 102))%nat then Some (n - 87)%nat
  else None.

Definition quote_char (c : ascii) : string :=
  if always_safe c then String c EmptyString
  else if Ascii.eqb c " " then "+"
  else
    let n := nat_of_ascii c in
    String "%" (String (hex_digit (n / 16)) (String (hex_digit (n mod 16)) EmptyString)).

Fixpoint quote_plus (s : string) : string :=
  match s with
  | EmptyString => EmptyString
  | String c rest => (quote_char c ++ quote_plus rest)%string
  end.

(** [string.replace('+', ' ')]. *)
Fixpoint plus_to_space (s : string) : string :=
  match s with
  | EmptyString => EmptyString
  | String c rest =>
      String (if Ascii.eqb c "+" then " "%char else c) (plus_to_space rest)
  end.

(** [unquote]: a percent sign followed by two hexadecimal digits is the
    character of that code; any other percent sign stays. *)
Fixpoint unquote (s : string) : string :=
  match s with
  | EmptyString => EmptyString
  | String c rest =>
      if Ascii.eqb c "%" then
        match rest with
        | String h1 (String h2 rest2) =>
            match hex_value h1, hex_value h2 with
            | Some a, Some b =>
                String (ascii_of_nat (16 * a + b)) (unquote rest2)
            | _, _ => String c (unquote rest)
            end
        | _ => String c (unquote rest)
        end
      else String c (unquote rest)
  end.

Definition unquote_plus (s : string) : string := unquote (plus_to_space s).

Definition lib : PyLib := Build_PyLib lower quote_plus unquote_plus.

End AsciiLib.

(** ** Notions the statements use *)

(** A token that [split('=')] cuts into exactly two parts. *)
Definition well_formed (otherTok : string) : bool :=
  Nat.eqb (Py.count_char "=" otherTok) 1.

(** A key is kept: it is in [props], or the wildcard is. *)
Definition kept (props : list string) (key : string) : bool :=
  Py.mem key props || Py.mem _WILDCARD props.

(** A well-formed token whose key is none of [orig], [origAnnotID],
    [parentId]. *)
Definition attr_token (otherTok : string) : bool :=
  match Py.split "=" otherTok with
  | [key; _] => negb (Py.mem key _OM_NON_ATTRIBUTE_PROPERTIES)
  | _ => false
  end.

(** Those tokens of [other], in the order they are met. *)
Definition attr_tokens (other : string) : list string :=
  filter attr_token (Py.split "&" other).

(** A token cut at its first separator, as the specification words it:
    [None] when the token holds no separator. *)
Fixpoint partition_first (c : ascii) (s : string) : option (string * string) :=
  match s with
  | EmptyString => None
  | String d rest =>
      if Ascii.eqb d c then Some (EmptyString, rest)
      else match partition_first c rest with
           | Some (a, b) => Some (String d a, b)
           | None => None
           end
  end.

(** The value of a key is percent-coded: the key is in the list, or the
    wildcard is. *)
Definition coded (codeProps : list string) (key : string) : bool :=
  Py.mem _WILDCARD codeProps || Py.mem key codeProps.

(** A mapping restricted to the keys that are kept. *)
Definition restrict (props : list string) (d : dict) : dict :=
  filter (fun entry => kept props (fst entry)) d.

(** The token the encoder writes for one entry. *)
Definition encoded_entry {L : PyLib} (encodeProps : list string)
    (entry : string * string) : string :=
  (fst entry ++ "="
   ++ (if coded encodeProps (fst entry) then quote_plus (snd entry) else snd entry))%string.

(** An entry the round trip can carry: its key is stored in the map on
    decoding, key and value hold no delimiter where they are written as
    they stand. *)
Definition round_trips {L : PyLib} (annotSet : string) (props codeProps : list string)
    (entry : string * string) : Prop :=
  to_attr_bag annotSet props (fst entry) = false
  /\ Py.has_char "&" (fst entry) = false
  /\ Py.has_char "=" (fst entry) = false
  /\ (coded codeProps (fst entry) = false ->
      Py.has_char "&" (snd entry) = false /\ Py.has_char "=" (snd entry) = false).

(** The gaps the sweep leaves between the cursor and each exclusion, and
    after the last one up to [endOffset], as pairs of slice bounds. *)
Fixpoint gaps (curOffset endOffset : Z) (pairs : list (Z * Z)) : list (Z * Z) :=
  match pairs with
  | [] => [(curOffset, endOffset)]
  | exTok :: rest => (curOffset, fst exTok) :: gaps (snd exTok) endOffset rest
  end.

Definition gap_text (docText : string) (gap : Z * Z) : string :=
  Py.slice docText (fst gap) (snd gap).

Fixpoint concat_text (l : list string) : string :=
  match l with
  | [] => EmptyString
  | x :: rest => (x ++ concat_text rest)%string
  end.

(** Ascending by [(exS, exE)]. *)
Fixpoint is_sorted (pairs : list (Z * Z)) : bool :=
  match pairs with
  | [] => true
  | p :: rest =>
      match rest with
      | [] => true
      | q :: _ => pair_leb p q && is_sorted rest
      end
  end.

(** The ranges [[exS, exE)] of two pairs share no position. *)
Definition disjoint (p q : Z * Z) : bool :=
  Z.min (snd p) (snd q) <=? Z.max (fst p) (fst q).

Fixpoint pairwise_disjoint (pairs : list (Z * Z)) : bool :=
  match pairs with
  | [] => true
  | p :: rest => forallb (disjoint p) rest && pairwise_disjoint rest
  end.

(** Position [x] lies in the range [[exS, exE)] of a pair. *)
Definition covers (exTok : Z * Z) (x : Z) : Prop :=
  fst exTok <= x < snd exTok.

(** The pairs fully cover [[startOffset, endOffset)]. *)
Definition fully_covered (startOffset endOffset : Z) (pairs : list (Z * Z)) : Prop :=
  forall x, startOffset <= x < endOffset -> exists exTok, In exTok pairs /\ covers exTok x.

(** An [excludes] entry with fewer than five comma-separated fields, or
    with a field 0, 3 or 4 that [int()] rejects. *)
Definition malformed (excludesEntry : string) : Prop :=
  let toks := Py.split "," excludesEntry in
  (List.length toks < 5)%nat
  \/ exists i tok, In i [0; 3; 4]%nat /\ nth_error toks i = Some tok
                   /\ Py.int tok = Raise ValueError.

(** A file system whose only file is the copy of one document under
    [/tmp/]. *)
Definition cached_fs (docId docText : string) : filesystem :=
  {| node_at := fun path => if String.eqb path ("/tmp/" ++ docId) then Text docText
                            else Absent;
     writable := fun _ => true |}.

(** A file system in which [path] exists and reading it raises [e]: a
    directory, a file without read permission, bytes that are not UTF-8. *)
Definition unreadable_fs (path : string) (e : exn) : filesystem :=
  {| node_at := fun p => if String.eqb p path then Unreadable e else Absent;
     writable := fun _ => true |}.

(** The order of the sort key, as a proposition. *)
Definition pair_le (p q : Z * Z) : Prop := pair_leb p q = true.

(** No step of the sweep moves the cursor back: each pair ends at or after
    the cursor it is met with, which is [startOffset] for the first pair and
    the end of the pair before it for the others. *)
Fixpoint cursor_advances (curOffset : Z) (pairs : list (Z * Z)) : bool :=
  match pairs with
  | [] => true
  | exTok :: rest => (curOffset <=? snd exTok) && cursor_advances (snd exTok) rest
  end.

(** The value a token gives for [key]: the token is well formed and [key]
    is its key. *)
Definition token_value (key otherTok : string) : option string :=
  match Py.split "=" otherTok with
  | [k; v] => if String.eqb k key then Some v else None
  | _ => None
  end.

(** The value of the last well-formed token with key [key]. *)
Fixpoint last_value (key : string) (otherToks : list string) : option string :=
  match otherToks with
  | [] => None
  | otherTok :: rest =>
      match last_value key rest with
      | Some v => Some v
      | None => token_value key otherTok
      end
  end.

(** A token the second branch of the loop buffers: well formed, its key
    not kept and not reserved, while [props] holds [attr] and the annotation
    set is [om]. *)
Definition unrequested_token {L : PyLib} (annotSet : string) (props : list string)
    (otherTok : string) : bool :=
  match Py.split "=" otherTok with
  | [key; _] =>
      negb (kept props key)
      && (Py.mem _ATTR props && String.eqb (lower annotSet) _OM_ANNOT_SET)
      && negb (Py.mem key _OM_NON_ATTRIBUTE_PROPERTIES)
  | _ => false
  end.

(** The mapping [HydrateText] writes [text] into: [properties], or [{}]
    when [properties] is [None]. *)
Definition dict_of (properties : option dict) : dict :=
  match properties with
  | Some d => d
  | None => []
  end.

(** [properties[key]] when [properties] is a mapping that holds [key]. *)
Definition prop_get (key : string) (properties : option dict) : option string :=
  dict_get key (dict_of properties).

(** The exclusions lie inside [[curOffset, endOffset]] one after the other:
    each starts at or after the end of the one before and ends at or after
    its own start. *)
Fixpoint laid_out (curOffset endOffset : Z) (pairs : list (Z * Z)) : bool :=
  match pairs with
  | [] => curOffset <=? endOffset
  | exTok :: rest =>
      (curOffset <=? fst exTok) && (fst exTok <=? snd exTok)
      && laid_out (snd exTok) endOffset rest
  end.

(** The number of positions the pairs exclude. *)
Fixpoint excluded_length (pairs : list (Z * Z)) : Z :=
  match pairs with
  | [] => 0
  | exTok :: rest => (snd exTok - fst exTok) + excluded_length rest
  end.

(** What [HydrateText] returns once the document text is read. *)
Definition hydrated (docText : string) (startOffset endOffset : Z)
    (properties : option dict) (excludes : bool) : result (option dict) :=
  if String.eqb docText EmptyString || has_key properties "text" then Ok properties
  else
    match annotation_text docText startOffset endOffset properties excludes with
    | Raise e => Raise e
    | Ok text => Ok (Some (dict_set (dict_of properties) "text" text))
    end.

(** A file system whose only file is the source file of one document;
    [can_write] says whether files can be written. *)
Definition source_fs (path docText : string) (can_write : bool) : filesystem :=
  {| node_at := fun p => if String.eqb p path then Text docText else Absent;
     writable := fun _ => can_write |}.

(** * Properties *)

(** ** Strings *)

Lemma has_char_count (c : ascii) (s : string) :
  Py.has_char c s = false <-> Py.count_char c s = O.
Proof.
  induction s as [|d s IH]; simpl.
  - tauto.
  - destruct (Ascii.eqb d c); simpl.
    + split; discriminate.
    + exact IH.
Qed.

Lemma has_char_app (c : ascii) (s t : string) :
  Py.has_char c (s ++ t) = Py.has_char c s || Py.has_char c t.
Proof.
  induction s as [|d s IH]; simpl.
  - reflexivity.
  - rewrite IH. apply orb_assoc.
Qed.

Lemma split_not_nil (c : ascii) (s : string) : Py.split c s <> [].
Proof.
  destruct s as [|d s]; simpl.
  - discriminate.
  - destruct (Ascii.eqb d c); [discriminate|].
    destruct (Py.split c s); discriminate.
Qed.

(** [split] yields one token more than there are separators. *)
Lemma split_length (c : ascii) (s : string) :
  List.length (Py.split c s) = S (Py.count_char c s).
Proof.
  induction s as [|d s IH]; simpl.
  - reflexivity.
  - destruct (Ascii.eqb d c); simpl.
    + now rewrite IH.
    + destruct (Py.split c s); simpl in *; [discriminate | exact IH].
Qed.

Lemma split_no_sep (c : ascii) (s : string) :
  Py.has_char c s = false -> Py.split c s = [s].
Proof.
  induction s as [|d s IH]; simpl; intros H.
  - reflexivity.
  - apply orb_false_elim in H as [Hd Hs].
    rewrite Hd, (IH Hs). reflexivity.
Qed.

Lemma split_app (c : ascii) (s t : string) :
  Py.has_char c s = false ->
  Py.split c (s ++ String c t) = s :: Py.split c t.
Proof.
  induction s as [|d s IH]; simpl; intros H.
  - now rewrite Ascii.eqb_refl.
  - apply orb_false_elim in H as [Hd Hs].
    rewrite Hd, (IH Hs). reflexivity.
Qed.

(** A token with exactly one separator is the text before it, the
    separator, and the text after it. *)
Lemma split_two (c : ascii) (s : string) :
  Py.count_char c s = 1%nat ->
  exists a b, s = (a ++ String c b)%string
              /\ Py.has_char c a = false /\ Py.has_char c b = false
              /\ Py.split c s = [a; b].
Proof.
  induction s as [|d s IH]; simpl; intros H.
  - discriminate.
  - destruct (Ascii.eqb d c) eqn:E.
    + apply Ascii.eqb_eq in E. subst d.
      injection H as H. apply has_char_count in H.
      exists EmptyString, s. simpl. repeat split; try assumption.
      now rewrite (split_no_sep _ _ H).
    + destruct (IH H) as (a & b & -> & Ha & Hb & Hs).
      exists (String d a), b. simpl. rewrite E, Ha, Hs. repeat split; assumption.
Qed.

Lemma split_key_value (c : ascii) (a b : string) :
  Py.has_char c a = false -> Py.has_char c b = false ->
  Py.split c (a ++ String c b) = [a; b].
Proof.
  intros Ha Hb. rewrite (split_app _ _ _ Ha), (split_no_sep _ _ Hb). reflexivity.
Qed.

(** Joining tokens that hold no separator and splitting again gives the
    tokens back. *)
Lemma split_join (c : ascii) (toks : list string) :
  toks <> [] ->
  Forall (fun tok => Py.has_char c tok = false) toks ->
  Py.split c (Py.join (String c EmptyString) toks) = toks.
Proof.
  induction toks as [|tok rest IH]; intros Hne Hall.
  - congruence.
  - inversion Hall as [|? ? Htok Hrest]; subst.
    destruct rest as [|tok' rest'].
    + simpl. now apply split_no_sep.
    + change (Py.join (String c EmptyString) (tok :: tok' :: rest'))
        with (tok ++ String c (Py.join (String c EmptyString) (tok' :: rest')))%string.
      rewrite (split_app _ _ _ Htok), IH; [reflexivity | discriminate | assumption].
Qed.

Lemma mem_In (x : string) (l : list string) : Py.mem x l = true <-> In x l.
Proof.
  induction l as [|y l IH]; simpl.
  - split; [discriminate | tauto].
  - rewrite orb_true_iff, IH, String.eqb_eq. split; intros [H|H]; auto.
Qed.

(** ** Dictionaries *)

Lemma dict_in_get (k : string) (d : dict) :
  dict_in k d = true <-> exists v, dict_get k d = Some v.
Proof.
  induction d as [|[k' v'] d IH]; simpl.
  - split; [discriminate | intros [v H]; discriminate].
  - destruct (String.eqb k' k); simpl.
    + split; [eauto | reflexivity].
    + exact IH.
Qed.

Lemma dict_get_set_same (d : dict) (k v : string) :
  dict_get k (dict_set d k v) = Some v.
Proof.
  induction d as [|[k' v'] d IH]; simpl.
  - now rewrite String.eqb_refl.
  - destruct (String.eqb k' k) eqn:E; simpl; rewrite E; [reflexivity | exact IH].
Qed.

Lemma dict_get_set_other (d : dict) (k k' v : string) :
  k <> k' -> dict_get k' (dict_set d k v) = dict_get k' d.
Proof.
  intros Hne. induction d as [|[k0 v0] d IH]; simpl.
  - destruct (String.eqb k k') eqn:E; [apply String.eqb_eq in E; contradiction | reflexivity].
  - destruct (String.eqb k0 k) eqn:E; simpl.
    + apply String.eqb_eq in E. subst k0.
      destruct (String.eqb k k') eqn:E'; [apply String.eqb_eq in E'; contradiction | reflexivity].
    + now rewrite IH.
Qed.

Lemma dict_in_set (d : dict) (k k' v : string) :
  dict_in k' (dict_set d k v) = String.eqb k k' || dict_in k' d.
Proof.
  induction d as [|[k0 v0] d IH]; simpl.
  - reflexivity.
  - destruct (String.eqb k0 k) eqn:E; simpl.
    + apply String.eqb_eq in E. subst k0.
      destruct (String.eqb k k'); reflexivity.
    + rewrite IH. destruct (String.eqb k0 k'), (String.eqb k k'); reflexivity.
Qed.

(** Assigning to a key that is absent appends the entry. *)
Lemma dict_set_fresh (d : dict) (k v : string) :
  dict_in k d = false -> dict_set d k v = d ++ [(k, v)].
Proof.
  induction d as [|[k0 v0] d IH]; simpl; intros H.
  - reflexivity.
  - apply orb_false_elim in H as [H0 Hd]. rewrite H0, (IH Hd). reflexivity.
Qed.

(** ** The decoder *)

Lemma foldM_app {A S : Type} (body : S -> A -> result S) (l1 l2 : list A) (st : S) :
  foldM body (l1 ++ l2) st = (st1 <- foldM body l1 st ;; foldM body l2 st1).
Proof.
  revert st. induction l1 as [|x l1 IH]; intros st; simpl.
  - reflexivity.
  - destruct (body st x); simpl; [apply IH | reflexivity].
Qed.

Lemma well_formed_split (otherTok : string) :
  well_formed otherTok = Nat.eqb (List.length (Py.split "=" otherTok)) 2.
Proof. unfold well_formed. now rewrite split_length. Qed.

Lemma reserved_not_attr (key : string) :
  Py.mem key _OM_NON_ATTRIBUTE_PROPERTIES = true -> String.eqb key _ATTR = false.
Proof.
  intros H. apply mem_In in H. simpl in H.
  destruct H as [<-|[<-|[<-|[]]]]; reflexivity.
Qed.

Section Decoder.
Context {L : PyLib}.
Variables (annotSet : string) (props lcProps decodeProps : list string).

Local Abbreviation step := (decode_tok annotSet props lcProps decodeProps).
Local Abbreviation run := (decode_toks annotSet props lcProps decodeProps).

(** The loop body by cases on what [split('=')] returns: the two indexings
    are guarded by the length test. *)
Lemma decode_tok_cases (st : dict * list string) (otherTok : string) :
  step st otherTok =
  match Py.split "=" otherTok with
  | [key; value] =>
      if kept props key then
        if to_attr_bag annotSet props key
        then Ok (fst st, snd st ++ [otherTok])
        else Ok (dict_set (fst st) key (processed lcProps decodeProps key value), snd st)
      else if Py.mem _ATTR props && String.eqb (lower annotSet) _OM_ANNOT_SET then
        if negb (Py.mem key _OM_NON_ATTRIBUTE_PROPERTIES)
        then Ok (fst st, snd st ++ [otherTok])
        else Ok st
      else Ok st
  | _ => Ok st
  end.
Proof.
  destruct st as [propsMap attrBuf]. unfold decode_tok, kept.
  destruct (Py.split "=" otherTok) as [|key [|value [|extra toks]]]; reflexivity.
Qed.

Lemma decode_tok_total (st : dict * list string) (otherTok : string) :
  exists st', step st otherTok = Ok st'.
Proof.
  rewrite decode_tok_cases.
  destruct (Py.split "=" otherTok) as [|key [|value [|extra toks]]]; eauto.
  destruct (kept props key).
  - destruct (to_attr_bag annotSet props key); eauto.
  - destruct (Py.mem _ATTR props && String.eqb (lower annotSet) _OM_ANNOT_SET); eauto.
    destruct (negb (Py.mem key _OM_NON_ATTRIBUTE_PROPERTIES)); eauto.
Qed.

Lemma decode_toks_total (otherToks : list string) (st : dict * list string) :
  exists st', run otherToks st = Ok st'.
Proof.
  unfold decode_toks.
  revert st. induction otherToks as [|tok rest IH]; intros st; simpl.
  - eauto.
  - destruct (decode_tok_total st tok) as [st1 ->]. simpl. apply IH.
Qed.

Lemma GetAQProperties_total (other : string) :
  exists d, GetAQProperties annotSet other props lcProps decodeProps = Ok d.
Proof.
  unfold GetAQProperties. destruct (Nat.ltb 0 (List.length props)); eauto.
  destruct (decode_toks_total (Py.split "&" other) empty_state) as [[propsMap attrBuf] ->].
  simpl. destruct (_ && _); eauto.
Qed.

(** A token that is not well formed leaves the state as it is. *)
Lemma decode_tok_ignored (st : dict * list string) (otherTok : string) :
  well_formed otherTok = false -> step st otherTok = Ok st.
Proof.
  rewrite well_formed_split, decode_tok_cases.
  destruct (Py.split "=" otherTok) as [|key [|value [|extra toks]]];
    [reflexivity | reflexivity | discriminate | reflexivity].
Qed.

Lemma decode_toks_filter (otherToks : list string) (st : dict * list string) :
  run otherToks st = run (filter well_formed otherToks) st.
Proof.
  unfold decode_toks.
  revert st. induction otherToks as [|tok rest IH]; intros st.
  - reflexivity.
  - simpl. destruct (well_formed tok) eqn:E; simpl.
    + destruct (step st tok); simpl; [apply IH | reflexivity].
    + rewrite (decode_tok_ignored _ _ E). simpl. apply IH.
Qed.

(** C5 (amended). For every [other] string the decoder splits it on [&]
    into tokens and splits each token on every [=]; a token with exactly
    one [=] gives (key, value), the text before and after it; every other
    token, one with no [=] among them, is ignored, and the decoder returns a
    mapping whatever its input: no indexing or call in it raises. *)
Theorem decoder_tokens_never_raise (other : string) :
  (exists d, GetAQProperties annotSet other props lcProps decodeProps = Ok d)
  /\ (forall st, run (Py.split "&" other) st
                 = run (filter well_formed (Py.split "&" other)) st)
  /\ (forall otherTok st, well_formed otherTok = false -> step st otherTok = Ok st)
  /\ (forall otherTok, Py.has_char "=" otherTok = false -> well_formed otherTok = false)
  /\ (forall otherTok, well_formed otherTok = true ->
        exists key value,
          otherTok = (key ++ "=" ++ value)%string
          /\ Py.has_char "=" key = false /\ Py.has_char "=" value = false
          /\ Py.split "=" otherTok = [key; value]).
Proof.
  split; [apply GetAQProperties_total|].
  split; [intros st; apply decode_toks_filter|].
  split; [intros tok st H; now apply decode_tok_ignored|].
  split.
  - intros tok H. unfold well_formed.
    apply has_char_count in H. now rewrite H.
  - intros tok H. unfold well_formed in H. apply Nat.eqb_eq in H.
    destruct (split_two _ _ H) as (a & b & Hab & Ha & Hb & Hs).
    exists a, b. auto.
Qed.

(** With the wildcard in [props] and the annotation set [om], the loop puts
    the reserved keys in the map, which so never gets an [attr] key, and
    buffers every other well-formed token as it stands. *)
Lemma run_attr_bag (otherToks : list string) (st : dict * list string) :
  Py.mem _WILDCARD props = true ->
  String.eqb (lower annotSet) _OM_ANNOT_SET = true ->
  dict_in _ATTR (fst st) = false ->
  exists propsMap',
    run otherToks st = Ok (propsMap', snd st ++ filter attr_token otherToks)
    /\ dict_in _ATTR propsMap' = false.
Proof.
  intros Hwild Hom. unfold decode_toks.
  revert st.
  induction otherToks as [|tok rest IH]; intros [propsMap attrBuf] Hattr;
    cbn [foldM fst snd] in *.
  - exists propsMap. simpl. now rewrite app_nil_r.
  - rewrite decode_tok_cases. cbn [filter].
    change (attr_token tok) with
      (match Py.split "=" tok with
       | [key; _] => negb (Py.mem key _OM_NON_ATTRIBUTE_PROPERTIES)
       | _ => false
       end).
    unfold kept, to_attr_bag.
    destruct (Py.split "=" tok) as [|key [|value [|extra toks]]];
      cbn [bind fst snd]; try (apply (IH (propsMap, attrBuf)); assumption).
    rewrite Hwild, Hom, orb_true_r. cbn [andb].
    destruct (Py.mem key _OM_NON_ATTRIBUTE_PROPERTIES) eqn:Hres; cbn [negb bind fst snd].
    + apply (IH (dict_set propsMap key (processed lcProps decodeProps key value), attrBuf)).
      cbn [fst]. rewrite dict_in_set, Hattr.
      now rewrite (reserved_not_attr _ Hres).
    + destruct (IH (propsMap, attrBuf ++ [tok]) Hattr) as (m & Hrun & Hm).
      exists m. split; [|exact Hm].
      rewrite Hrun. cbn [snd]. rewrite <- app_assoc. reflexivity.
Qed.

(** C6. When [props] holds the wildcard and the annotation set is [om] in
    any letter case, a token whose key is none of [orig], [origAnnotID],
    [parentId] is appended as it stands to the attribute buffer; after the
    loop, a non-empty buffer and a map without [attr] give
    [map['attr']], the buffered tokens joined by [&] in the order they were
    met; and decoding [a=1&b=2&c=3] with [props = ['*']] gives exactly
    [{attr: a=1&b=2&c=3}]. *)
Theorem attribute_bag_rule :
  Py.mem _WILDCARD props = true ->
  String.eqb (lower annotSet) _OM_ANNOT_SET = true ->
  (forall propsMap attrBuf otherTok key value,
      Py.split "=" otherTok = [key; value] ->
      Py.mem key _OM_NON_ATTRIBUTE_PROPERTIES = false ->
      step (propsMap, attrBuf) otherTok = Ok (propsMap, attrBuf ++ [otherTok]))
  /\ (forall other propsMap attrBuf,
        run (Py.split "&" other) empty_state = Ok (propsMap, attrBuf) ->
        attrBuf <> [] -> dict_in _ATTR propsMap = false ->
        GetAQProperties annotSet other props lcProps decodeProps
        = Ok (dict_set propsMap _ATTR (Py.join "&" attrBuf)))
  /\ (forall other, exists propsMap,
        run (Py.split "&" other) empty_state = Ok (propsMap, attr_tokens other)
        /\ dict_in _ATTR propsMap = false
        /\ GetAQProperties annotSet other props lcProps decodeProps
           = Ok (match attr_tokens other with
                 | [] => propsMap
                 | _ => dict_set propsMap _ATTR (Py.join "&" (attr_tokens other))
                 end))
  /\ GetAQProperties annotSet "a=1&b=2&c=3" [_WILDCARD] lcProps decodeProps
     = Ok [(_ATTR, "a=1&b=2&c=3")].
Proof.
  intros Hwild Hom.
  assert (Hprops : Nat.ltb 0 (List.length props) = true).
  { destruct props; [discriminate | reflexivity]. }
  split; [|split; [|split]].
  - intros propsMap attrBuf tok key value Hsplit Hres.
    rewrite decode_tok_cases, Hsplit. unfold kept, to_attr_bag.
    rewrite Hwild, Hom, Hres, orb_true_r. reflexivity.
  - intros other propsMap attrBuf Hrun Hne Hattr.
    unfold GetAQProperties. rewrite Hprops, Hrun. simpl. rewrite Hattr.
    destruct attrBuf; [congruence | reflexivity].
  - intros other.
    destruct (run_attr_bag (Py.split "&" other) empty_state Hwild Hom eq_refl)
      as (m & Hrun & Hm).
    exists m. simpl in Hrun. fold (attr_tokens other) in Hrun.
    repeat split; try assumption.
    unfold GetAQProperties. rewrite Hprops, Hrun. simpl. rewrite Hm.
    destruct (attr_tokens other); reflexivity.
  - unfold GetAQProperties, decode_toks, decode_tok, to_attr_bag. simpl.
    rewrite Hom. reflexivity.
Qed.

(** Once a key is bound, tokens that are not well-formed tokens of that key
    leave its binding alone. *)
Lemma run_keeps_binding (otherToks : list string) (key v : string) :
  (forall tok value', In tok otherToks -> Py.split "=" tok <> [key; value']) ->
  forall st,
    dict_get key (fst st) = Some v ->
    exists st', run otherToks st = Ok st' /\ dict_get key (fst st') = Some v.
Proof.
  unfold decode_toks.
  induction otherToks as [|tok rest IH]; intros Hlater st Hget; cbn [foldM].
  - eauto.
  - assert (Hrest : forall t value', In t rest -> Py.split "=" t <> [key; value']).
    { intros t value' Hin. apply Hlater. now right. }
    assert (Htok : forall value', Py.split "=" tok <> [key; value']).
    { intros value'. apply Hlater. now left. }
    rewrite decode_tok_cases.
    destruct (Py.split "=" tok) as [|k [|value [|extra toks]]]; cbn [bind];
      try (apply IH; assumption).
    destruct (kept props k).
    + destruct (to_attr_bag annotSet props k); cbn [bind].
      * apply IH; assumption.
      * apply IH; [assumption|]. cbn [fst].
        rewrite dict_get_set_other; [assumption|].
        intros ->. now apply (Htok value).
    + destruct (_ && _); cbn [bind]; [|apply IH; assumption].
      destruct (negb _); cbn [bind]; apply IH; assumption.
Qed.

(** C10. When a kept key that goes to the map, not to the attribute
    buffer, occurs in well-formed tokens of [other], the mapping returned
    binds it to the processed value of its last such token. *)
Theorem last_occurrence_wins (other : string)
    (before after : list string) (otherTok key value : string) :
  Py.split "&" other = before ++ otherTok :: after ->
  Py.split "=" otherTok = [key; value] ->
  (forall tok value', In tok after -> Py.split "=" tok <> [key; value']) ->
  kept props key = true ->
  to_attr_bag annotSet props key = false ->
  exists d,
    GetAQProperties annotSet other props lcProps decodeProps = Ok d
    /\ dict_get key d = Some (processed lcProps decodeProps key value).
Proof.
  intros Hother Htok Hafter Hkept Hbag.
  assert (Hprops : Nat.ltb 0 (List.length props) = true).
  { unfold kept in Hkept. destruct props; [discriminate | reflexivity]. }
  unfold GetAQProperties. rewrite Hprops, Hother.
  unfold decode_toks. rewrite foldM_app.
  destruct (decode_toks_total before empty_state) as [st0 Hbefore].
  unfold decode_toks in Hbefore. rewrite Hbefore. cbn [bind foldM].
  rewrite decode_tok_cases, Htok, Hkept, Hbag. cbn [bind].
  destruct (run_keeps_binding after key (processed lcProps decodeProps key value)
              Hafter (dict_set (fst st0) key (processed lcProps decodeProps key value), snd st0)
              (dict_get_set_same _ _ _)) as ([m buf] & Hrun & Hget).
  unfold decode_toks in Hrun. rewrite Hrun. cbn [bind fst] in *.
  destruct (Nat.ltb 0 (List.length buf) && negb (dict_in _ATTR m)) eqn:E.
  - eexists. split; [reflexivity|].
    rewrite dict_get_set_other; [assumption|].
    intros <-. apply andb_prop in E as [_ E].
    assert (Hin : dict_in _ATTR m = true) by (apply dict_in_get; eauto).
    now rewrite Hin in E.
  - eauto.
Qed.

End Decoder.

(** ** The encoder *)

Section Encoder.
Context {L : PyLib}.
Variables (props encodeProps : list string).

Lemma kept_comm (key : string) :
  Py.mem _WILDCARD props || Py.mem key props = kept props key.
Proof. unfold kept. apply orb_comm. Qed.

(** The loop appends, in the mapping's order, one token per kept entry. *)
Lemma encode_fold (d : dict) (otherBuf : list string) :
  fold_left (encode_prop props encodeProps) d otherBuf
  = otherBuf ++ map (encoded_entry encodeProps) (restrict props d).
Proof.
  revert otherBuf. induction d as [|[prop value] d IH]; intros otherBuf; simpl.
  - now rewrite app_nil_r.
  - rewrite IH, kept_comm. unfold encoded_entry at 2, coded. simpl.
    destruct (kept props prop); simpl.
    + destruct (Py.mem _WILDCARD encodeProps || Py.mem prop encodeProps);
        now rewrite <- app_assoc.
    + reflexivity.
Qed.

Lemma GetCATProperties_Some (d : dict) :
  GetCATProperties (Some d) props encodeProps
  = Some (Py.join "&" (map (encoded_entry encodeProps) (restrict props d))).
Proof. unfold GetCATProperties. now rewrite encode_fold. Qed.

Lemma restrict_none (d : dict) :
  (forall key value, In (key, value) d -> kept props key = false) ->
  restrict props d = [].
Proof.
  induction d as [|[key value] d IH]; intros H; simpl.
  - reflexivity.
  - rewrite (H key value (or_introl eq_refl)). apply IH.
    intros k v Hin. apply (H k v). now right.
Qed.

(** C9. The encoder returns [None] exactly when the mapping it is given is
    [None]; for a mapping in which no key qualifies (no key is in [props]
    and the wildcard is not either) it returns the empty string, not
    [None]. *)
Theorem encoder_none_and_empty (properties : option dict) :
  (GetCATProperties properties props encodeProps = None <-> properties = None)
  /\ (forall d, properties = Some d ->
        (forall key value, In (key, value) d -> kept props key = false) ->
        GetCATProperties properties props encodeProps = Some EmptyString).
Proof.
  split.
  - destruct properties; simpl; split; intros H; congruence.
  - intros d -> Hnone.
    now rewrite GetCATProperties_Some, (restrict_none d Hnone).
Qed.

End Encoder.

(** ** Encoding, then decoding *)

Lemma dict_in_app (k : string) (d1 d2 : dict) :
  dict_in k (d1 ++ d2) = dict_in k d1 || dict_in k d2.
Proof.
  induction d1 as [|[k' v'] d1 IH]; simpl.
  - reflexivity.
  - rewrite IH. apply orb_assoc.
Qed.

Lemma NoDup_keys_filter (f : string * string -> bool) (d : dict) :
  NoDup (map fst d) -> NoDup (map fst (filter f d)).
Proof.
  induction d as [|e d IH]; simpl; intros H.
  - constructor.
  - inversion H as [|? ? Hnotin Hd]; subst.
    destruct (f e); simpl; [|now apply IH].
    constructor; [|now apply IH].
    intros Hin. apply Hnotin.
    apply in_map_iff in Hin as (e' & He' & Hin).
    apply filter_In in Hin as [Hin _].
    apply in_map_iff. eauto.
Qed.

Section RoundTrip.
Context {L : PyLib} {Laws : PyLibLaws L}.
Variables (annotSet : string) (props codeProps : list string).

Local Abbreviation run := (decode_toks annotSet props [] codeProps).

Lemma encoded_entry_split (entry : string * string) :
  round_trips annotSet props codeProps entry ->
  Py.split "=" (encoded_entry codeProps entry)
  = [fst entry; if coded codeProps (fst entry) then quote_plus (snd entry) else snd entry].
Proof.
  intros (_ & _ & Hkey & Hvalue). unfold encoded_entry.
  apply split_key_value; [exact Hkey|].
  destruct (coded codeProps (fst entry)).
  - apply quote_plus_no_eq.
  - now apply Hvalue.
Qed.

Lemma encoded_entry_no_amp (entry : string * string) :
  round_trips annotSet props codeProps entry ->
  Py.has_char "&" (encoded_entry codeProps entry) = false.
Proof.
  intros (_ & Hkey & _ & Hvalue). unfold encoded_entry.
  rewrite !has_char_app, Hkey. simpl.
  destruct (coded codeProps (fst entry)).
  - apply quote_plus_no_amp.
  - now apply Hvalue.
Qed.

(** Decoding what the encoder wrote for a value gives the value back. *)
Lemma processed_encoded (key value : string) :
  processed [] codeProps key
    (if coded codeProps key then quote_plus value else value) = value.
Proof.
  unfold processed, coded. simpl.
  rewrite (orb_comm (Py.mem key codeProps)).
  destruct (Py.mem _WILDCARD codeProps || Py.mem key codeProps).
  - apply unquote_quote.
  - reflexivity.
Qed.

(** Decoding the tokens of entries with distinct fresh keys appends the
    entries to the map and leaves the attribute buffer alone. *)
Lemma run_encoded (entries : dict) (st : dict * list string) :
  Forall (fun entry => kept props (fst entry) = true
                       /\ round_trips annotSet props codeProps entry) entries ->
  NoDup (map fst entries) ->
  (forall entry, In entry entries -> dict_in (fst entry) (fst st) = false) ->
  run (map (encoded_entry codeProps) entries) st = Ok (fst st ++ entries, snd st).
Proof.
  unfold decode_toks. revert st.
  induction entries as [|[key value] entries IH]; intros [propsMap attrBuf] Hall Hnodup Hfresh;
    cbn [map foldM fst snd] in *.
  - now rewrite app_nil_r.
  - inversion Hall as [|? ? [Hkept Hrt] Hrest]; subst.
    inversion Hnodup as [|? ? Hnotin Hnodup']; subst.
    rewrite decode_tok_cases, (encoded_entry_split _ Hrt).
    destruct Hrt as (Hbag & _). cbn [fst snd] in *.
    rewrite Hkept, Hbag. cbn [bind fst snd].
    rewrite processed_encoded.
    rewrite (dict_set_fresh propsMap key value (Hfresh _ (or_introl eq_refl))).
    assert (Hfresh' : forall entry, In entry entries ->
                dict_in (fst entry) (propsMap ++ [(key, value)]) = false).
    { intros [k v] Hin. cbn [fst]. rewrite dict_in_app.
      rewrite (Hfresh (k, v) (or_intror Hin) : dict_in k propsMap = false). simpl.
      destruct (String.eqb key k) eqn:E; [|reflexivity].
      apply String.eqb_eq in E. subst k. exfalso. apply Hnotin.
      apply in_map_iff. exists (key, v). auto. }
    specialize (IH (propsMap ++ [(key, value)], attrBuf) Hrest Hnodup' Hfresh').
    cbn [fst snd] in IH. rewrite <- app_assoc in IH. exact IH.
Qed.

(** C4 (amended). For a property mapping [p], a key list [props] and one
    list [codeProps] used both to encode and to decode, with no
    lower-casing: when every kept entry of [p] goes to the map on decoding
    (not to the attribute buffer), its key holds no [&] and no [=], and its
    value holds none either unless it is percent-coded, decoding what the
    encoder wrote gives [p] restricted to the kept keys, in [p]'s order. *)
Theorem encode_decode_round_trip (p : dict) :
  NoDup (map fst p) ->
  (forall entry, In entry p -> kept props (fst entry) = true ->
                 round_trips annotSet props codeProps entry) ->
  exists other,
    GetCATProperties (Some p) props codeProps = Some other
    /\ GetAQProperties annotSet other props [] codeProps = Ok (restrict props p).
Proof.
  intros Hnodup Hok.
  rewrite GetCATProperties_Some. eexists. split; [reflexivity|].
  assert (Hall : Forall (fun entry => kept props (fst entry) = true
                          /\ round_trips annotSet props codeProps entry)
                        (restrict props p)).
  { apply Forall_forall. intros entry Hin.
    apply filter_In in Hin as [Hin Hkept]. auto. }
  assert (Hkeys : NoDup (map fst (restrict props p))) by now apply NoDup_keys_filter.
  unfold GetAQProperties.
  destruct (restrict props p) as [|entry entries] eqn:Hrestrict.
  - destruct (Nat.ltb 0 (List.length props)); reflexivity.
  - assert (Hprops : Nat.ltb 0 (List.length props) = true).
    { inversion Hall as [|? ? [Hkept _] _]; subst.
      unfold kept in Hkept. destruct props; [discriminate | reflexivity]. }
    rewrite Hprops, split_join.
    + rewrite (run_encoded (entry :: entries) empty_state Hall Hkeys).
      * reflexivity.
      * reflexivity.
    + discriminate.
    + apply Forall_forall. intros tok Hin.
      apply in_map_iff in Hin as (e & <- & Hin).
      apply encoded_entry_no_amp.
      rewrite Forall_forall in Hall. now apply Hall.
Qed.

End RoundTrip.

(** ** The library on ASCII text satisfies the laws *)

Lemma ascii_unquote_quote_char (c : ascii) (rest : string) :
  AsciiLib.unquote (AsciiLib.plus_to_space (AsciiLib.quote_char c ++ rest))
  = String c (AsciiLib.unquote (AsciiLib.plus_to_space rest)).
Proof.
  destruct c as [[] [] [] [] [] [] [] []]; reflexivity.
Qed.

Lemma ascii_quote_char_no_delimiter (d c : ascii) :
  d = "&"%char \/ d = "="%char ->
  Py.has_char d (AsciiLib.quote_char c) = false.
Proof.
  intros [-> | ->]; destruct c as [[] [] [] [] [] [] [] []]; reflexivity.
Qed.

Lemma ascii_quote_plus_no_delimiter (d : ascii) (s : string) :
  d = "&"%char \/ d = "="%char ->
  Py.has_char d (AsciiLib.quote_plus s) = false.
Proof.
  intros Hd. induction s as [|c s IH]; simpl.
  - reflexivity.
  - now rewrite has_char_app, IH, (ascii_quote_char_no_delimiter d c Hd).
Qed.

Lemma ascii_laws : PyLibLaws AsciiLib.lib.
Proof.
  split; simpl.
  - unfold AsciiLib.unquote_plus.
    induction s as [|c s IH]; simpl.
    + reflexivity.
    + now rewrite ascii_unquote_quote_char, IH.
  - intros s. apply ascii_quote_plus_no_delimiter. now left.
  - intros s. apply ascii_quote_plus_no_delimiter. now right.
Qed.

(** ** The hydrator *)

Lemma string_app_assoc (a b c : string) : ((a ++ b) ++ c = a ++ (b ++ c))%string.
Proof. induction a as [|x a IH]; simpl; [reflexivity | now rewrite IH]. Qed.

Lemma string_app_nil_r (a : string) : (a ++ EmptyString)%string = a.
Proof. induction a as [|x a IH]; simpl; [reflexivity | now rewrite IH]. Qed.

Lemma substring_zero (n : nat) (s : string) : substring n 0 s = EmptyString.
Proof.
  revert n. induction s as [|c s IH]; intros [|n]; simpl; try reflexivity.
  apply IH.
Qed.

(** A slice whose bounds are positions, the second not after the first,
    is empty. *)
Lemma slice_empty (s : string) (a b : Z) :
  0 <= b <= a -> Py.slice s a b = EmptyString.
Proof.
  intros H. unfold Py.slice, Py.clip.
  destruct (Z.ltb_spec a 0), (Z.ltb_spec b 0); try lia.
  replace (Z.to_nat (Z.min b (Z.of_nat (String.length s))
                     - Z.min a (Z.of_nat (String.length s)))) with O by lia.
  apply substring_zero.
Qed.

(** Whatever the pairs, as long as all offsets are positions: the sweep
    collects the slices between the cursor and the next start, and the
    text after the last end. *)
Lemma sweep_gaps (docText : string) (endOffset : Z) (pairs : list (Z * Z)) :
  0 <= endOffset ->
  Forall (fun exTok => 0 <= fst exTok /\ 0 <= snd exTok) pairs ->
  forall text curOffset,
    0 <= curOffset ->
    (let '(text', curOffset') :=
       fold_left (sweep_step docText) pairs (text, curOffset) in
     if curOffset' <? endOffset
     then (text' ++ Py.slice docText curOffset' endOffset)%string
     else text')
    = (text ++ concat_text (map (gap_text docText) (gaps curOffset endOffset pairs)))%string.
Proof.
  intros Hend. induction pairs as [|[exS exE] rest IH]; intros Hpos text cur Hcur;
    cbn [fold_left gaps map concat_text].
  - unfold gap_text. cbn [fst snd]. rewrite string_app_nil_r.
    destruct (Z.ltb_spec cur endOffset); [reflexivity|].
    rewrite slice_empty by lia. now rewrite string_app_nil_r.
  - inversion Hpos as [|? ? [HexS HexE] Hrest]; subst. cbn [fst snd] in *.
    unfold sweep_step at 2. cbn [fst snd]. unfold gap_text at 1. cbn [fst snd].
    destruct (Z.leb_spec exS cur).
    + rewrite (IH Hrest text exE HexE).
      rewrite slice_empty by lia. reflexivity.
    + rewrite (IH Hrest _ exE HexE). apply string_app_assoc.
Qed.

Lemma excluded_text_gaps (docText : string) (startOffset endOffset : Z)
    (pairs : list (Z * Z)) :
  0 <= startOffset -> 0 <= endOffset ->
  Forall (fun exTok => 0 <= fst exTok /\ 0 <= snd exTok) pairs ->
  excluded_text docText startOffset endOffset pairs
  = concat_text (map (gap_text docText) (gaps startOffset endOffset pairs)).
Proof.
  intros Hstart Hend Hpos. unfold excluded_text, sweep.
  exact (sweep_gaps docText endOffset pairs Hend Hpos EmptyString startOffset Hstart).
Qed.

(** What [HydrateText] returns when it takes the branch with exclusions. *)
Lemma HydrateText_excludes (fs fs' : filesystem) (docId txtPath docText value : string)
    (startOffset endOffset : Z) (d : dict) (parsed : list exclude) :
  read_docText fs docId txtPath = (Ok docText, fs') ->
  docText <> EmptyString ->
  dict_in "text" d = false ->
  dict_get "excludes" d = Some value ->
  value <> EmptyString ->
  parse_excludes value = Ok parsed ->
  HydrateText fs docId startOffset endOffset (Some d) txtPath true
  = (Ok (Some (dict_set d "text"
                 (excluded_text docText startOffset endOffset (exToks parsed)))), fs').
Proof.
  intros Hread Hdoc Htext Hex Hvalue Hparse.
  unfold HydrateText. rewrite Hread.
  apply String.eqb_neq in Hdoc. rewrite Hdoc. cbn [has_key orb]. rewrite Htext.
  unfold annotation_text. rewrite Hex.
  destruct value as [|c value]; [congruence|]. cbn [andb String.length Nat.ltb Nat.leb].
  rewrite Hparse. reflexivity.
Qed.

(** C3. For every document text and span whose offsets are positions,
    when the exclusion pairs the sweep runs over are sorted ascending and
    pairwise disjoint, the text the hydrator stores is the concatenation,
    in order, of the slices of the document between the start and the first
    exclusion, between consecutive exclusions, and between the last
    exclusion and the end; for [0123456789], start 0, end 10 and pairs
    [(2,4), (6,8)] it is [014589]. *)
Theorem excludes_disjoint_sorted (docText : string) (startOffset endOffset : Z)
    (pairs : list (Z * Z)) :
  0 <= startOffset -> 0 <= endOffset ->
  Forall (fun exTok => 0 <= fst exTok /\ 0 <= snd exTok) pairs ->
  is_sorted pairs = true ->
  pairwise_disjoint pairs = true ->
  excluded_text docText startOffset endOffset pairs
  = concat_text (map (gap_text docText) (gaps startOffset endOffset pairs))
  /\ (forall fs fs' docId txtPath value d parsed,
        read_docText fs docId txtPath = (Ok docText, fs') ->
        docText <> EmptyString ->
        dict_in "text" d = false ->
        dict_get "excludes" d = Some value ->
        value <> EmptyString ->
        parse_excludes value = Ok parsed ->
        exToks parsed = pairs ->
        HydrateText fs docId startOffset endOffset (Some d) txtPath true
        = (Ok (Some (dict_set d "text"
                 (concat_text (map (gap_text docText)
                                   (gaps startOffset endOffset pairs))))), fs'))
  /\ excluded_text "0123456789" 0 10 [(2, 4); (6, 8)] = "014589".
Proof.
  intros Hstart Hend Hpos _ _.
  split; [now apply excluded_text_gaps|].
  split; [|reflexivity].
  intros fs fs' docId txtPath value d parsed Hread Hdoc Htext Hex Hvalue Hparse Hpairs.
  rewrite (HydrateText_excludes fs fs' docId txtPath docText value
             startOffset endOffset d parsed Hread Hdoc Htext Hex Hvalue Hparse).
  now rewrite Hpairs, excluded_text_gaps.
Qed.

(** *** The exclusion pairs *)

Lemma pair_le_spec (p q : Z * Z) :
  pair_le p q <-> fst p < fst q \/ (fst p = fst q /\ snd p <= snd q).
Proof.
  unfold pair_le, pair_leb.
  rewrite orb_true_iff, andb_true_iff, Z.ltb_lt, Z.eqb_eq, Z.leb_le. tauto.
Qed.

Lemma pair_le_total (p q : Z * Z) : pair_le p q \/ pair_le q p.
Proof. rewrite !pair_le_spec. lia. Qed.

Lemma pair_le_trans (p q r : Z * Z) : pair_le p q -> pair_le q r -> pair_le p r.
Proof. rewrite !pair_le_spec. lia. Qed.

Lemma pair_le_antisym (p q : Z * Z) : pair_le p q -> pair_le q p -> p = q.
Proof.
  rewrite !pair_le_spec. destruct p, q. simpl. intros H1 H2.
  f_equal; lia.
Qed.

Lemma insert_pair_perm (p : Z * Z) (l : list (Z * Z)) :
  Permutation (p :: l) (insert_pair p l).
Proof.
  induction l as [|q l IH]; simpl.
  - apply Permutation_refl.
  - destruct (pair_leb p q).
    + apply Permutation_refl.
    + eapply perm_trans; [apply perm_swap|]. now apply perm_skip.
Qed.

Lemma sort_pairs_perm (l : list (Z * Z)) : Permutation l (sort_pairs l).
Proof.
  induction l as [|p l IH]; simpl.
  - constructor.
  - eapply perm_trans; [apply perm_skip, IH | apply insert_pair_perm].
Qed.

Lemma insert_pair_sorted (p : Z * Z) (l : list (Z * Z)) :
  StronglySorted pair_le l -> StronglySorted pair_le (insert_pair p l).
Proof.
  induction l as [|q l IH]; simpl; intros Hs.
  - repeat constructor.
  - inversion Hs as [|? ? Hl Hq]; subst.
    destruct (pair_leb p q) eqn:E.
    + constructor; [assumption|].
      constructor; [exact E|].
      eapply Forall_impl; [|exact Hq].
      intros r Hr. now apply (pair_le_trans p q r).
    + constructor; [now apply IH|].
      assert (Hqp : pair_le q p).
      { destruct (pair_le_total p q) as [H|H]; [unfold pair_le in H; congruence | exact H]. }
      apply Forall_forall. intros r Hr.
      apply (Permutation_in _ (Permutation_sym (insert_pair_perm p l))) in Hr.
      destruct Hr as [<-|Hr]; [exact Hqp|].
      rewrite Forall_forall in Hq. now apply Hq.
Qed.

Lemma sort_pairs_sorted (l : list (Z * Z)) : StronglySorted pair_le (sort_pairs l).
Proof.
  induction l as [|p l IH]; simpl.
  - constructor.
  - now apply insert_pair_sorted.
Qed.

(** Two sorted lists with the same elements are the same list. *)
Lemma sorted_perm_eq (u v : list (Z * Z)) :
  StronglySorted pair_le u -> StronglySorted pair_le v ->
  Permutation u v -> u = v.
Proof.
  revert v. induction u as [|a u IH]; intros v Hu Hv Hperm.
  - apply Permutation_nil in Hperm. now subst.
  - destruct v as [|b v].
    + apply Permutation_sym, Permutation_nil in Hperm. discriminate.
    + inversion Hu as [|? ? Hu' Ha]; subst.
      inversion Hv as [|? ? Hv' Hb]; subst.
      rewrite Forall_forall in Ha, Hb.
      assert (Hab : a = b).
      { assert (Hain : In a (b :: v))
          by (apply (Permutation_in _ Hperm); now left).
        assert (Hbin : In b (a :: u))
          by (apply (Permutation_in _ (Permutation_sym Hperm)); now left).
        destruct Hain as [->|Hain]; [reflexivity|].
        destruct Hbin as [->|Hbin]; [reflexivity|].
        apply pair_le_antisym; auto. }
      subst b. f_equal. apply IH; try assumption.
      now apply Permutation_cons_inv with (a := a).
Qed.

Lemma sort_pairs_perm_invariant (u v : list (Z * Z)) :
  Permutation u v -> sort_pairs u = sort_pairs v.
Proof.
  intros Hperm. apply sorted_perm_eq; try apply sort_pairs_sorted.
  eapply perm_trans; [apply Permutation_sym, sort_pairs_perm|].
  eapply perm_trans; [exact Hperm | apply sort_pairs_perm].
Qed.

(** [exToks] does not depend on the order in which Python lists the two
    sets: for any listing [es] of the distinct entries and any listing [ps]
    of the distinct offset pairs of [es], sorting [ps] gives [exToks]. *)
Lemma exToks_order_irrelevant (excludes es : list exclude) (ps : list (Z * Z)) :
  NoDup es -> (forall e, In e es <-> In e excludes) ->
  NoDup ps ->
  (forall p, In p ps <-> In p (map (fun e : exclude => (snd (fst e), snd e)) es)) ->
  sort_pairs ps = exToks excludes.
Proof.
  intros _ Hes Hps Hpairs. unfold exToks.
  apply sort_pairs_perm_invariant, NoDup_Permutation.
  - exact Hps.
  - apply NoDup_nodup.
  - intros p. rewrite Hpairs, nodup_In, !in_map_iff.
    split; intros (e & He & Hin); exists e; split; try assumption.
    + apply nodup_In, Hes, Hin.
    + apply Hes. now apply nodup_In in Hin.
Qed.

Lemma is_sorted_spec (pairs : list (Z * Z)) :
  StronglySorted pair_le pairs -> is_sorted pairs = true.
Proof.
  induction pairs as [|p [|q rest] IH]; intros Hs; try reflexivity.
  inversion Hs as [|? ? Hrest Hp]; subst.
  change (is_sorted (p :: q :: rest)) with (pair_leb p q && is_sorted (q :: rest)).
  rewrite (IH Hrest), andb_true_r.
  inversion Hp; subst. assumption.
Qed.

(** The sweep always runs over pairs sorted ascending, without repeats. *)
Lemma exToks_sorted (excludes : list exclude) :
  is_sorted (exToks excludes) = true /\ NoDup (exToks excludes).
Proof.
  split.
  - apply is_sorted_spec, sort_pairs_sorted.
  - eapply Permutation_NoDup; [apply sort_pairs_perm | apply NoDup_nodup].
Qed.

(** *** The sweep's cursor *)

(** C1 (the code departs from it). The sweep sets the cursor to [exE]
    whether or not that moves it forward. With the two entries
    [(0,10)] and [(2,4)], which sort in this order, the cursor stands at 10
    after the first pair; the second pair starts at or before it, and the
    step takes the cursor back to 4, not to [max 10 4]. The text from 4 to
    10, which the first entry excludes, is then stored. *)
Theorem sweep_cursor_moves_back (docText : string) :
  parse_excludes "0,a,b,0,10|0,a,b,2,4"
  = Ok [(0, "a", "b", 0, 10); (0, "a", "b", 2, 4)]
  /\ exToks [(0, "a", "b", 0, 10); (0, "a", "b", 2, 4)] = [(0, 10); (2, 4)]
  /\ sweep docText 0 [(0, 10)] = (EmptyString, 10)
  /\ sweep_step docText (EmptyString, 10) (2, 4) = (EmptyString, 4)
  /\ Z.max 10 4 = 10
  /\ sweep docText 0 [(0, 10); (2, 4)] = (EmptyString, 4)
  /\ HydrateText (cached_fs "doc" "0123456789") "doc" 0 10
       (Some [("excludes", "0,a,b,0,10|0,a,b,2,4")]) "/txt/" true
     = (Ok (Some [("excludes", "0,a,b,0,10|0,a,b,2,4"); ("text", "456789")]),
        cached_fs "doc" "0123456789").
Proof. repeat split. Qed.

(** *** Exclusions that cover the span *)

Lemma is_sorted_tail (p : Z * Z) (rest : list (Z * Z)) :
  is_sorted (p :: rest) = true -> is_sorted rest = true.
Proof.
  destruct rest as [|q rest]; [reflexivity|].
  change (is_sorted (p :: q :: rest)) with (pair_leb p q && is_sorted (q :: rest)).
  intros H. now apply andb_prop in H.
Qed.

(** In a sorted list no pair starts before the first one. *)
Lemma is_sorted_head (p : Z * Z) (rest : list (Z * Z)) :
  is_sorted (p :: rest) = true -> Forall (fun q => fst p <= fst q) rest.
Proof.
  revert p. induction rest as [|q rest IH]; intros p H; [constructor|].
  change (is_sorted (p :: q :: rest)) with (pair_leb p q && is_sorted (q :: rest)) in H.
  apply andb_prop in H as [Hpq Hrest].
  assert (Hle : fst p <= fst q).
  { apply pair_le_spec in Hpq. lia. }
  constructor; [exact Hle|].
  eapply Forall_impl; [|exact (IH q Hrest)].
  intros r Hr. simpl in Hr. lia.
Qed.

(** When no pair moves the cursor back or starts after [endOffset], and
    the pairs cover what lies between the cursor and [endOffset], the sweep
    takes no slice and ends at or after [endOffset]. *)
Lemma sweep_covered (docText : string) (endOffset : Z) (pairs : list (Z * Z)) :
  forall text curOffset,
    is_sorted pairs = true ->
    cursor_advances curOffset pairs = true ->
    Forall (fun exTok => fst exTok <= endOffset) pairs ->
    fully_covered curOffset endOffset pairs ->
    exists curOffset',
      fold_left (sweep_step docText) pairs (text, curOffset) = (text, curOffset')
      /\ endOffset <= curOffset'.
Proof.
  induction pairs as [|[exS exE] rest IH]; intros text cur Hsorted Hadv Hstart Hcover;
    cbn [fold_left].
  - exists cur. split; [reflexivity|].
    destruct (Z.le_gt_cases endOffset cur) as [H|H]; [exact H|].
    destruct (Hcover cur ltac:(lia)) as (p & [] & _).
  - cbn [cursor_advances snd] in Hadv. apply andb_prop in Hadv as [Hcur Hadv].
    apply Z.leb_le in Hcur.
    inversion Hstart as [|? ? HexS Hstart']; subst. cbn [fst] in HexS.
    pose proof (is_sorted_head _ _ Hsorted) as Hhead. cbn [fst] in Hhead.
    rewrite Forall_forall in Hhead.
    assert (Hle : exS <= cur).
    { destruct (Z.le_gt_cases exS cur) as [H|H]; [exact H|].
      destruct (Z.le_gt_cases endOffset cur) as [Hend|Hend]; [lia|].
      destruct (Hcover cur ltac:(lia)) as (p & [<-|Hin] & Hp); unfold covers in Hp.
      - cbn [fst snd] in Hp. lia.
      - specialize (Hhead p Hin). lia. }
    unfold sweep_step at 2. cbn [fst snd].
    apply Z.leb_le in Hle. rewrite Hle.
    apply IH; [now apply is_sorted_tail in Hsorted | exact Hadv | exact Hstart' |].
    intros x Hx.
    destruct (Hcover x ltac:(lia)) as (p & [<-|Hin] & Hp).
    + unfold covers in Hp. cbn [fst snd] in Hp. lia.
    + eauto.
Qed.

(** C2 (amended). For every document text, span and sorted list of
    exclusion pairs that fully cover the span, when no pair starts after
    [endOffset] and no pair moves the cursor back (each ends at or after
    [startOffset] and at or after the pair sorted before it), the text of
    the span is the empty string, and that is what [HydrateText] stores. *)
Theorem covered_span_is_empty (docText : string) (startOffset endOffset : Z)
    (pairs : list (Z * Z)) :
  is_sorted pairs = true ->
  cursor_advances startOffset pairs = true ->
  Forall (fun exTok => fst exTok <= endOffset) pairs ->
  fully_covered startOffset endOffset pairs ->
  excluded_text docText startOffset endOffset pairs = EmptyString
  /\ (forall fs fs' docId txtPath value d parsed,
        read_docText fs docId txtPath = (Ok docText, fs') ->
        docText <> EmptyString ->
        dict_in "text" d = false ->
        dict_get "excludes" d = Some value ->
        value <> EmptyString ->
        parse_excludes value = Ok parsed ->
        exToks parsed = pairs ->
        HydrateText fs docId startOffset endOffset (Some d) txtPath true
        = (Ok (Some (dict_set d "text" EmptyString)), fs')).
Proof.
  intros Hsorted Hadv Hstart Hcover.
  assert (Hempty : excluded_text docText startOffset endOffset pairs = EmptyString).
  { unfold excluded_text, sweep.
    destruct (sweep_covered docText endOffset pairs EmptyString startOffset
                Hsorted Hadv Hstart Hcover) as (cur & -> & Hcur).
    destruct (Z.ltb_spec cur endOffset); [lia | reflexivity]. }
  split; [exact Hempty|].
  intros fs fs' docId txtPath value d parsed Hread Hdoc Htext Hex Hvalue Hparse Hpairs.
  rewrite (HydrateText_excludes fs fs' docId txtPath docText value
             startOffset endOffset d parsed Hread Hdoc Htext Hex Hvalue Hparse).
  now rewrite Hpairs, Hempty.
Qed.

(** *** Reading the document *)

(** Without a copy under [/tmp/], nothing that goes wrong while reading
    the source file or writing the copy is raised. *)
Lemma source_failures_caught (fs : filesystem) (docId txtPath : string) :
  path_exists fs ("/tmp/" ++ docId) = false ->
  exists docText fs', read_docText fs docId txtPath = (Ok docText, fs')
    /\ (forall e, read_file fs (txtPath ++ docId) = Raise e -> docText = EmptyString).
Proof.
  intros Hnone. unfold read_docText. rewrite Hnone.
  destruct (read_file fs (txtPath ++ docId)) as [docText|e].
  - destruct (write_file fs ("/tmp/" ++ docId) docText) as [fs'|e'].
    + exists docText, fs'. split; [reflexivity | discriminate].
    + exists EmptyString, fs. split; [reflexivity | discriminate].
  - exists EmptyString, fs. split; reflexivity.
Qed.

(** An empty document text, or a [text] key that is already there: the
    properties are returned as they were given. *)
Lemma HydrateText_short_circuit (fs fs' : filesystem) (docId txtPath docText : string)
    (startOffset endOffset : Z) (properties : option dict) (excludes : bool) :
  read_docText fs docId txtPath = (Ok docText, fs') ->
  docText = EmptyString \/ has_key properties "text" = true ->
  HydrateText fs docId startOffset endOffset properties txtPath excludes
  = (Ok properties, fs').
Proof.
  intros Hread Hshort. unfold HydrateText. rewrite Hread.
  destruct Hshort as [-> | ->]; [reflexivity | now rewrite orb_true_r].
Qed.

(** C7 (the code departs from it). The read of the copy under [/tmp/]
    stands outside the [try]: when the copy exists and reading it raises,
    [HydrateText] raises too and returns no properties. *)
Theorem cached_copy_failure_propagates (e : exn) (docId txtPath : string)
    (startOffset endOffset : Z) (properties : option dict) (excludes : bool) :
  HydrateText (unreadable_fs ("/tmp/" ++ docId) e) docId startOffset endOffset
    properties txtPath excludes
  = (Raise e, unreadable_fs ("/tmp/" ++ docId) e).
Proof.
  unfold HydrateText, read_docText, path_exists, read_file, unreadable_fs.
  cbn [node_at]. now rewrite String.eqb_refl.
Qed.

(** *** Parsing the exclusions *)

Lemma foldM_raise {A S : Type} (body : S -> A -> result S) (x : A) (l : list A) :
  In x l -> (forall st, exists e, body st x = Raise e) ->
  forall st, exists e, foldM body l st = Raise e.
Proof.
  intros Hin Hx. induction l as [|y l IH]; intros st; [contradiction|].
  cbn [foldM]. destruct Hin as [->|Hin].
  - destruct (Hx st) as [e ->]. cbn [bind]. eauto.
  - destruct (body st y) as [st'|e]; cbn [bind]; [now apply IH | eauto].
Qed.

Ltac destruct_int :=
  match goal with
  | |- context [bind (Py.int ?tok) _] => destruct (Py.int tok) eqn:?; cbn [bind]
  end.

Lemma parse_exclude_malformed (excludesEntry : string) :
  malformed excludesEntry -> exists e, parse_exclude excludesEntry = Raise e.
Proof.
  unfold malformed, parse_exclude, Py.get.
  destruct (Py.split "," excludesEntry) as [|t0 [|t1 [|t2 [|t3 [|t4 rest]]]]];
    cbn [List.length nth_error bind]; intros Hbad;
    repeat destruct_int; eauto.
  exfalso. destruct Hbad as [Hlen | (i & tok & Hi & Hnth & Hint)]; [lia|].
  destruct Hi as [<-|[<-|[<-|[]]]]; cbn [nth_error] in Hnth;
    injection Hnth as ->; congruence.
Qed.

Lemma parse_excludes_malformed (value excludesEntry : string) :
  In excludesEntry (Py.split "|" value) -> malformed excludesEntry ->
  exists e, parse_excludes value = Raise e.
Proof.
  intros Hin Hbad. unfold parse_excludes.
  apply (foldM_raise _ excludesEntry); [exact Hin|].
  intros st. destruct (parse_exclude_malformed _ Hbad) as [e ->]. cbn [bind]. eauto.
Qed.

(** C8. Some hydrate calls with a non-empty document text, no [text] key
    and a malformed non-empty [excludes] value raise an error: one with an
    entry of four fields raises [IndexError], one with a non-integer start
    offset raises [ValueError]. So does every such call that asks for the
    exclusions to be applied. *)
Theorem malformed_excludes_raise :
  (forall fs fs' docId txtPath docText value excludesEntry startOffset endOffset d,
      read_docText fs docId txtPath = (Ok docText, fs') ->
      docText <> EmptyString ->
      dict_in "text" d = false ->
      dict_get "excludes" d = Some value ->
      value <> EmptyString ->
      In excludesEntry (Py.split "|" value) ->
      malformed excludesEntry ->
      exists e,
        HydrateText fs docId startOffset endOffset (Some d) txtPath true
        = (Raise e, fs'))
  /\ HydrateText (cached_fs "doc" "0123456789") "doc" 0 10
       (Some [("excludes", "0,a,b,2,4|0,a,b,6")]) "/txt/" true
     = (Raise IndexError, cached_fs "doc" "0123456789")
  /\ HydrateText (cached_fs "doc" "0123456789") "doc" 0 10
       (Some [("excludes", "0,a,b,two,4")]) "/txt/" true
     = (Raise ValueError, cached_fs "doc" "0123456789").
Proof.
  split; [|split; reflexivity].
  intros fs fs' docId txtPath docText value entry startOffset endOffset d
         Hread Hdoc Htext Hex Hvalue Hin Hbad.
  destruct (parse_excludes_malformed value entry Hin Hbad) as [e He].
  exists e. unfold HydrateText. rewrite Hread.
  apply String.eqb_neq in Hdoc. rewrite Hdoc. cbn [has_key orb]. rewrite Htext.
  unfold annotation_text. rewrite Hex.
  destruct value as [|c value]; [congruence|]. cbn [andb String.length Nat.ltb Nat.leb].
  rewrite He. reflexivity.
Qed.

(** * Concrete runs *)

(** C3 on the specification's scenario, through [HydrateText]. *)
Lemma excludes_disjoint_sorted_run :
  HydrateText (cached_fs "doc" "0123456789") "doc" 0 10
    (Some [("excludes", "1,a,b,2,4|1,a,b,6,8")]) "/txt/" true
  = (Ok (Some [("excludes", "1,a,b,2,4|1,a,b,6,8"); ("text", "014589")]),
     cached_fs "doc" "0123456789").
Proof.
  assert (Hpos : Forall (fun exTok : Z * Z => 0 <= fst exTok /\ 0 <= snd exTok)
                        [(2, 4); (6, 8)]).
  { repeat constructor; simpl; lia. }
  destruct (excludes_disjoint_sorted "0123456789" 0 10 [(2, 4); (6, 8)]
              ltac:(lia) ltac:(lia) Hpos eq_refl eq_refl) as (_ & Hrun & _).
  apply (Hrun (cached_fs "doc" "0123456789") (cached_fs "doc" "0123456789")
              "doc" "/txt/" "1,a,b,2,4|1,a,b,6,8"
              [("excludes", "1,a,b,2,4|1,a,b,6,8")]
              [(1, "a", "b", 2, 4); (1, "a", "b", 6, 8)]);
    try reflexivity; discriminate.
Defined.

(** C4 as stated fails: a value written as it stands that holds [=] makes
    a token the decoder drops. Encoding [{k: a=b}] gives [k=a=b], and
    decoding that gives the empty mapping, not [{k: a=b}]. *)
Lemma round_trip_drops_raw_delimiter :
  @GetCATProperties AsciiLib.lib (Some [("k", "a=b")]) ["k"] [] = Some "k=a=b"
  /\ @GetAQProperties AsciiLib.lib "x" "k=a=b" ["k"] [] [] = Ok []
  /\ restrict ["k"] [("k", "a=b")] = [("k", "a=b")].
Proof. repeat split. Qed.

(** C4 (amended) on a mapping with a percent-coded value, a raw value
    and a key that is not kept. *)
Lemma encode_decode_round_trip_run :
  exists other,
    @GetCATProperties AsciiLib.lib
      (Some [("a", "1 & 2=3"); ("b", "x+y"); ("c", "u=v")]) ["a"; "b"] ["a"]
    = Some other
    /\ @GetAQProperties AsciiLib.lib "om" other ["a"; "b"] [] ["a"]
       = Ok [("a", "1 & 2=3"); ("b", "x+y")].
Proof.
  apply (@encode_decode_round_trip AsciiLib.lib ascii_laws "om" ["a"; "b"] ["a"]
           [("a", "1 & 2=3"); ("b", "x+y"); ("c", "u=v")]).
  - repeat constructor; simpl; intuition discriminate.
  - intros entry [<-|[<-|[<-|[]]]] Hkept; try discriminate Hkept;
      unfold round_trips; simpl; repeat split; intros; discriminate.
Defined.

(** C5 as stated fails: cut at its first [=], the token [a=b=c] is the key
    [a] with the value [b=c], and [a] is asked for; the decoder ignores the
    token and returns the empty mapping. *)
Lemma first_separator_split_differs :
  partition_first "=" "a=b=c" = Some ("a", "b=c")
  /\ Py.split "=" "a=b=c" = ["a"; "b"; "c"]
  /\ @GetAQProperties AsciiLib.lib "x" "a=b=c" ["a"] [] [] = Ok [].
Proof. repeat split. Qed.

(** C5 (amended) on a string with a token without [=] and one with two. *)
Lemma decoder_tokens_never_raise_run :
  exists d, @GetAQProperties AsciiLib.lib "x" "a=1&junk&b=2=3" ["*"] [] [] = Ok d.
Proof.
  exact (proj1 (@decoder_tokens_never_raise AsciiLib.lib "x" ["*"] [] [] "a=1&junk&b=2=3")).
Defined.

(** C6 with the annotation set written in capitals. *)
Lemma attribute_bag_rule_run :
  @GetAQProperties AsciiLib.lib "OM" "a=1&b=2&c=3" [_WILDCARD] ["*"] ["*"]
  = Ok [(_ATTR, "a=1&b=2&c=3")].
Proof.
  exact (proj2 (proj2 (proj2
    (@attribute_bag_rule AsciiLib.lib "OM" [_WILDCARD] ["*"] ["*"] eq_refl eq_refl)))).
Defined.

(** C9 on a mapping none of whose keys is asked for. *)
Lemma encoder_none_and_empty_run :
  @GetCATProperties AsciiLib.lib (Some [("a", "1"); ("b", "2")]) ["c"] ["*"]
  = Some EmptyString.
Proof.
  apply (proj2 (@encoder_none_and_empty AsciiLib.lib ["c"] ["*"]
                  (Some [("a", "1"); ("b", "2")])) [("a", "1"); ("b", "2")] eq_refl).
  intros key value [H|[H|[]]]; injection H as <- <-; reflexivity.
Defined.

(** C10 on a key given three times, the last time in a token that is not
    well formed. *)
Lemma last_occurrence_wins_run :
  exists d,
    @GetAQProperties AsciiLib.lib "x" "b=One&b=Two&a=z&b=3=4" ["b"] ["b"] []
    = Ok d
    /\ dict_get "b" d = Some "two".
Proof.
  apply (@last_occurrence_wins AsciiLib.lib "x" ["b"] ["b"] []
           "b=One&b=Two&a=z&b=3=4" ["b=One"] ["a=z"; "b=3=4"] "b=Two" "b" "Two");
    try reflexivity.
  intros tok value' [<-|[<-|[]]]; simpl; discriminate.
Defined.

(** C8 on an entry whose end offset is missing. *)
Lemma malformed_excludes_raise_run :
  exists e,
    HydrateText (cached_fs "doc" "0123456789") "doc" 0 10
      (Some [("excludes", "0,a,b,2,4|0,a,b,6")]) "/txt/" true
    = (Raise e, cached_fs "doc" "0123456789").
Proof.
  apply (proj1 malformed_excludes_raise
           (cached_fs "doc" "0123456789") (cached_fs "doc" "0123456789")
           "doc" "/txt/" "0123456789" "0,a,b,2,4|0,a,b,6" "0,a,b,6" 0 10
           [("excludes", "0,a,b,2,4|0,a,b,6")]);
    try reflexivity; try discriminate.
  - simpl. auto.
  - left. simpl. lia.
Defined.

(** C2 as stated fails: the pairs [(0,6)] and [(8,9)] fully cover [[0, 5)],
    no step moves the cursor back, and the text stored for the span is [67],
    the slice between the two exclusions, beyond the span's end. *)
Lemma covered_span_text_beyond_end :
  parse_excludes "0,a,b,0,6|0,a,b,8,9"
  = Ok [(0, "a", "b", 0, 6); (0, "a", "b", 8, 9)]
  /\ exToks [(0, "a", "b", 0, 6); (0, "a", "b", 8, 9)] = [(0, 6); (8, 9)]
  /\ fully_covered 0 5 [(0, 6); (8, 9)]
  /\ cursor_advances 0 [(0, 6); (8, 9)] = true
  /\ HydrateText (cached_fs "doc" "0123456789") "doc" 0 5
       (Some [("excludes", "0,a,b,0,6|0,a,b,8,9")]) "/txt/" true
     = (Ok (Some [("excludes", "0,a,b,0,6|0,a,b,8,9"); ("text", "67")]),
        cached_fs "doc" "0123456789").
Proof.
  repeat split.
  intros x Hx. exists (0, 6). split; [now left | unfold covers; simpl; lia].
Qed.

(** C2 (amended) on two overlapping exclusions that cover the span. *)
Lemma covered_span_is_empty_run :
  HydrateText (cached_fs "doc" "0123456789") "doc" 2 9
    (Some [("excludes", "0,a,b,5,9|0,a,b,2,6")]) "/txt/" true
  = (Ok (Some [("excludes", "0,a,b,5,9|0,a,b,2,6"); ("text", "")]),
     cached_fs "doc" "0123456789").
Proof.
  assert (Hstart : Forall (fun exTok : Z * Z => fst exTok <= 9) [(2, 6); (5, 9)]).
  { repeat constructor; simpl; lia. }
  assert (Hcover : fully_covered 2 9 [(2, 6); (5, 9)]).
  { intros x Hx. destruct (Z.lt_ge_cases x 6).
    - exists (2, 6). unfold covers. simpl. split; [auto | lia].
    - exists (5, 9). unfold covers. simpl. split; [auto | lia]. }
  destruct (covered_span_is_empty "0123456789" 2 9 [(2, 6); (5, 9)]
              eq_refl eq_refl Hstart Hcover) as (_ & Hrun).
  apply (Hrun (cached_fs "doc" "0123456789") (cached_fs "doc" "0123456789")
              "doc" "/txt/" "0,a,b,5,9|0,a,b,2,6"
              [("excludes", "0,a,b,5,9|0,a,b,2,6")]
              [(0, "a", "b", 5, 9); (0, "a", "b", 2, 6)]);
    try reflexivity; discriminate.
Defined.

(** * Further properties *)

(** ** The decoder, key by key *)

Lemma dict_in_keys (k : string) (d : dict) :
  dict_in k d = true <-> In k (map fst d).
Proof.
  induction d as [|[k' v'] d IH]; simpl.
  - split; [discriminate | tauto].
  - rewrite orb_true_iff, IH, String.eqb_eq. tauto.
Qed.

Lemma dict_set_keys (d : dict) (k v : string) :
  map fst (dict_set d k v)
  = if dict_in k d then map fst d else map fst d ++ [k].
Proof.
  induction d as [|[k' v'] d IH]; simpl.
  - reflexivity.
  - destruct (String.eqb k' k) eqn:E; simpl.
    + reflexivity.
    + rewrite IH. now destruct (dict_in k d).
Qed.

Lemma dict_set_NoDup (d : dict) (k v : string) :
  NoDup (map fst d) -> NoDup (map fst (dict_set d k v)).
Proof.
  intros H. rewrite dict_set_keys. destruct (dict_in k d) eqn:E; [exact H|].
  apply NoDup_app; [exact H | repeat constructor; auto |].
  intros x Hx [<-|[]]. apply dict_in_keys in Hx. congruence.
Qed.

Lemma token_value_split (key otherTok k v : string) :
  Py.split "=" otherTok = [k; v] ->
  token_value key otherTok = if String.eqb k key then Some v else None.
Proof. intros H. unfold token_value. now rewrite H. Qed.

Lemma token_value_malformed (key otherTok : string) :
  (forall k v, Py.split "=" otherTok <> [k; v]) -> token_value key otherTok = None.
Proof.
  intros H. unfold token_value.
  destruct (Py.split "=" otherTok) as [|k [|v [|x r]]]; try reflexivity.
  now elim (H k v).
Qed.

Section DecoderLookup.
Context {L : PyLib}.
Variables (annotSet : string) (props lcProps decodeProps : list string).

Local Abbreviation step := (decode_tok annotSet props lcProps decodeProps).
Local Abbreviation run := (decode_toks annotSet props lcProps decodeProps).

(** What a key is bound to after the loop, when it was bound to [old]
    before: the processed value of its last token if it is kept and has
    one. *)
Definition bound_after (otherToks : list string) (key : string)
    (old : option string) : option string :=
  match (if kept props key then last_value key otherToks else None) with
  | Some v => Some (processed lcProps decodeProps key v)
  | None => old
  end.

(** The loop, when no kept token goes to the attribute buffer: the map is
    updated key by key, and the buffer receives the unrequested tokens. *)
Lemma run_plain (otherToks : list string) :
  (forall key, to_attr_bag annotSet props key = false) ->
  forall st, exists propsMap',
    run otherToks st
    = Ok (propsMap', snd st ++ filter (unrequested_token annotSet props) otherToks)
    /\ forall key, dict_get key propsMap'
                   = bound_after otherToks key (dict_get key (fst st)).
Proof.
  intros Hbag. unfold decode_toks, bound_after.
  induction otherToks as [|tok rest IH]; intros [propsMap attrBuf];
    cbn [foldM filter last_value fst snd].
  - exists propsMap. split; [now rewrite app_nil_r|].
    intros key. now destruct (kept props key).
  - rewrite decode_tok_cases. cbn [fst snd].
    change (unrequested_token annotSet props tok) with
      (match Py.split "=" tok with
       | [key; _] =>
           negb (kept props key)
           && (Py.mem _ATTR props && String.eqb (lower annotSet) _OM_ANNOT_SET)
           && negb (Py.mem key _OM_NON_ATTRIBUTE_PROPERTIES)
       | _ => false
       end).
    destruct (Py.split "=" tok) as [|k [|v [|x r]]] eqn:Hs;
      try (assert (Hnone : forall key, token_value key tok = None)
             by (intros key; apply token_value_malformed; rewrite Hs; discriminate);
           cbn [bind];
           destruct (IH (propsMap, attrBuf)) as (m & Hrun & Hget);
           exists m; split; [exact Hrun|];
           intros key; rewrite Hget, Hnone; cbn [fst];
           destruct (kept props key); [destruct (last_value key rest)|]; reflexivity).
    assert (Hval : forall key, token_value key tok
                               = if String.eqb k key then Some v else None)
      by (intros key; now apply token_value_split).
    destruct (kept props k) eqn:Hk.
    + rewrite Hbag. cbn [bind negb andb].
      destruct (IH (dict_set propsMap k (processed lcProps decodeProps k v), attrBuf))
        as (m & Hrun & Hget).
      exists m. split; [exact Hrun|].
      intros key. rewrite Hget, Hval. cbn [fst].
      destruct (String.eqb k key) eqn:E.
      * apply String.eqb_eq in E. subst key. rewrite Hk, dict_get_set_same.
        now destruct (last_value k rest).
      * apply String.eqb_neq in E. rewrite (dict_get_set_other _ _ _ _ E).
        destruct (kept props key); [destruct (last_value key rest)|]; reflexivity.
    + assert (Hother : forall key,
                 (if kept props key
                  then match last_value key rest with
                       | Some v0 => Some v0
                       | None => token_value key tok
                       end
                  else None)
                 = (if kept props key then last_value key rest else None)).
      { intros key. rewrite Hval.
        destruct (kept props key) eqn:Hkey; [|reflexivity].
        destruct (last_value key rest); [reflexivity|].
        destruct (String.eqb k key) eqn:E; [|reflexivity].
        apply String.eqb_eq in E. congruence. }
      cbn [negb andb].
      destruct (Py.mem _ATTR props && String.eqb (lower annotSet) _OM_ANNOT_SET);
        cbn [andb];
        [destruct (negb (Py.mem k _OM_NON_ATTRIBUTE_PROPERTIES))|]; cbn [bind].
      * destruct (IH (propsMap, attrBuf ++ [tok])) as (m & Hrun & Hget).
        exists m. split.
        -- rewrite Hrun. cbn [snd]. now rewrite <- app_assoc.
        -- intros key. now rewrite Hget, Hother.
      * destruct (IH (propsMap, attrBuf)) as (m & Hrun & Hget).
        exists m. split; [exact Hrun|].
        intros key. now rewrite Hget, Hother.
      * destruct (IH (propsMap, attrBuf)) as (m & Hrun & Hget).
        exists m. split; [exact Hrun|].
        intros key. now rewrite Hget, Hother.
Qed.

Lemma filter_none {A : Type} (f : A -> bool) (l : list A) :
  (forall x, f x = false) -> filter f l = [].
Proof.
  intros H. induction l as [|x l IH]; simpl; [reflexivity|].
  now rewrite H.
Qed.

(** X1. When the annotation set is not [om], the mapping the decoder
    returns binds a key exactly when the key is kept and some well-formed
    token carries it, and then to the processed value of the last such
    token; nothing is collected under [attr]. *)
Theorem decoder_plain_lookup (other : string) :
  String.eqb (lower annotSet) _OM_ANNOT_SET = false ->
  exists d,
    GetAQProperties annotSet other props lcProps decodeProps = Ok d
    /\ forall key,
         dict_get key d
         = if kept props key
           then option_map (processed lcProps decodeProps key)
                           (last_value key (Py.split "&" other))
           else None.
Proof.
  intros Hom. unfold GetAQProperties.
  destruct (Nat.ltb 0 (List.length props)) eqn:Hprops.
  - assert (Hbag : forall key, to_attr_bag annotSet props key = false).
    { intros key. unfold to_attr_bag. rewrite Hom. now rewrite andb_false_r. }
    destruct (run_plain (Py.split "&" other) Hbag empty_state) as (m & Hrun & Hget).
    rewrite Hrun. cbn [bind snd empty_state app].
    rewrite filter_none.
    + cbn [List.length Nat.ltb Nat.leb andb]. exists m. split; [reflexivity|].
      intros key. rewrite Hget. unfold bound_after. cbn [fst empty_state dict_get].
      destruct (kept props key); [destruct (last_value key _)|]; reflexivity.
    + intros tok. unfold unrequested_token. rewrite Hom.
      destruct (Py.split "=" tok) as [|k [|v [|x r]]]; try reflexivity.
      now rewrite !andb_false_r.
  - exists []. split; [reflexivity|].
    intros key. destruct props; [reflexivity | discriminate].
Qed.

(** X2. When [props] holds [attr] but not the wildcard and the annotation
    set is [om]: a key other than [attr] is bound as in the plain case; [attr]
    is bound to the processed value of the last [attr] token when there is
    one, and otherwise to the well-formed tokens whose key is neither kept
    nor reserved, as they stand, joined by [&] in the order they are met
    (and is absent when there is none). *)
Theorem attr_marker_rule (other : string) :
  Py.mem _ATTR props = true ->
  Py.mem _WILDCARD props = false ->
  String.eqb (lower annotSet) _OM_ANNOT_SET = true ->
  exists d,
    GetAQProperties annotSet other props lcProps decodeProps = Ok d
    /\ dict_get _ATTR d
       = match last_value _ATTR (Py.split "&" other) with
         | Some v => Some (processed lcProps decodeProps _ATTR v)
         | None =>
             match filter (unrequested_token annotSet props) (Py.split "&" other) with
             | [] => None
             | tok :: toks => Some (Py.join "&" (tok :: toks))
             end
         end
    /\ forall key, key <> _ATTR ->
         dict_get key d
         = if kept props key
           then option_map (processed lcProps decodeProps key)
                           (last_value key (Py.split "&" other))
           else None.
Proof.
  intros Hattr Hwild Hom. unfold GetAQProperties.
  assert (Hprops : Nat.ltb 0 (List.length props) = true).
  { destruct props; [discriminate | reflexivity]. }
  assert (Hbag : forall key, to_attr_bag annotSet props key = false).
  { intros key. unfold to_attr_bag. now rewrite Hwild. }
  assert (Hkept : kept props _ATTR = true).
  { unfold kept. now rewrite Hattr. }
  destruct (run_plain (Py.split "&" other) Hbag empty_state) as (m & Hrun & Hget).
  rewrite Hprops, Hrun. cbn [bind snd empty_state app].
  assert (Hm : forall key,
             dict_get key m
             = if kept props key
               then option_map (processed lcProps decodeProps key)
                               (last_value key (Py.split "&" other))
               else None).
  { intros key. rewrite Hget. unfold bound_after. cbn [fst empty_state dict_get].
    destruct (kept props key); [destruct (last_value key _)|]; reflexivity. }
  pose proof (Hm _ATTR) as Hma. rewrite Hkept in Hma.
  destruct (filter (unrequested_token annotSet props) (Py.split "&" other))
    as [|tok toks] eqn:Hfilter.
  - cbn [List.length Nat.ltb Nat.leb andb]. exists m.
    split; [reflexivity|]. split; [|intros key _; apply Hm].
    rewrite Hma. now destruct (last_value _ATTR _).
  - cbn [List.length Nat.ltb Nat.leb andb].
    destruct (dict_in _ATTR m) eqn:Hin; cbn [negb].
    + exists m. split; [reflexivity|]. split; [|intros key _; apply Hm].
      rewrite Hma. apply dict_in_get in Hin as [v Hv].
      rewrite Hma in Hv. now destruct (last_value _ATTR _).
    + eexists. split; [reflexivity|]. split.
      * rewrite dict_get_set_same.
        destruct (last_value _ATTR (Py.split "&" other)) eqn:Hlast; [|reflexivity].
        assert (Habs : dict_in _ATTR m = true) by (apply dict_in_get; eauto).
        congruence.
      * intros key Hne. rewrite dict_get_set_other by congruence. apply Hm.
Qed.

(** Keys enter the map only from kept, well-formed tokens, and never
    twice. *)
Lemma run_keys (otherToks : list string) :
  forall st st',
    run otherToks st = Ok st' ->
    NoDup (map fst (fst st)) ->
    NoDup (map fst (fst st'))
    /\ forall key, In key (map fst (fst st')) ->
         In key (map fst (fst st))
         \/ (kept props key = true
             /\ exists tok v, In tok otherToks /\ Py.split "=" tok = [key; v]).
Proof.
  unfold decode_toks.
  induction otherToks as [|tok rest IH]; intros st st' Hrun Hnodup; cbn [foldM] in Hrun.
  - injection Hrun as <-. auto.
  - rewrite decode_tok_cases in Hrun.
    assert (Hskip : foldM step rest st = Ok st' ->
              NoDup (map fst (fst st'))
              /\ forall key, In key (map fst (fst st')) ->
                   In key (map fst (fst st))
                   \/ (kept props key = true
                       /\ exists t v, In t (tok :: rest) /\ Py.split "=" t = [key; v])).
    { intros H. destruct (IH st st' H Hnodup) as [Hn Hk]. split; [exact Hn|].
      intros key Hin. destruct (Hk key Hin) as [H1|(H1 & t & v & Ht & Hv)]; [now left|].
      right. split; [exact H1|]. exists t, v. split; [now right | exact Hv]. }
    assert (Hbuf : forall buf, foldM step rest (fst st, buf) = Ok st' ->
              NoDup (map fst (fst st'))
              /\ forall key, In key (map fst (fst st')) ->
                   In key (map fst (fst st))
                   \/ (kept props key = true
                       /\ exists t v, In t (tok :: rest) /\ Py.split "=" t = [key; v])).
    { intros buf H. destruct (IH (fst st, buf) st' H Hnodup) as [Hn Hk]. split; [exact Hn|].
      intros key Hin. destruct (Hk key Hin) as [H1|(H1 & t & v & Ht & Hv)]; [now left|].
      right. split; [exact H1|]. exists t, v. split; [now right | exact Hv]. }
    destruct (Py.split "=" tok) as [|k [|v [|x r]]] eqn:Hs; cbn [bind] in Hrun;
      try (now apply Hskip).
    destruct (kept props k) eqn:Hk.
    + destruct (to_attr_bag annotSet props k); cbn [bind] in Hrun.
      * now apply (Hbuf _ Hrun).
      * destruct (IH _ st' Hrun) as [Hn Hkeys].
        { cbn [fst]. now apply dict_set_NoDup. }
        split; [exact Hn|].
        intros key Hin. destruct (Hkeys key Hin) as [H1|(H1 & t & v' & Ht & Hv)].
        -- cbn [fst] in H1. rewrite dict_set_keys in H1.
           destruct (dict_in k (fst st)); [now left|].
           apply in_app_or in H1 as [H1|[<-|[]]]; [now left|].
           right. split; [exact Hk|]. exists tok, v. split; [now left | exact Hs].
        -- right. split; [exact H1|]. exists t, v'. split; [now right | exact Hv].
    + destruct (_ && _); cbn [bind] in Hrun; [|now apply Hskip].
      destruct (negb _); cbn [bind] in Hrun; [now apply (Hbuf _ Hrun) | now apply Hskip].
Qed.

(** X3. The mapping the decoder returns has no key twice, and each of its
    keys is [attr] or a kept key that some well-formed token of [other]
    carries: the decoder never makes up a key and never returns one that
    was not asked for. *)
Theorem decoder_keys_sound (other : string) :
  exists d,
    GetAQProperties annotSet other props lcProps decodeProps = Ok d
    /\ NoDup (map fst d)
    /\ forall key, In key (map fst d) ->
         key = _ATTR
         \/ (kept props key = true
             /\ exists tok v, In tok (Py.split "&" other)
                              /\ Py.split "=" tok = [key; v]).
Proof.
  unfold GetAQProperties.
  destruct (Nat.ltb 0 (List.length props)).
  - destruct (decode_toks_total annotSet props lcProps decodeProps
                (Py.split "&" other) empty_state) as [[m buf] Hrun].
    rewrite Hrun. cbn [bind].
    destruct (run_keys _ _ _ Hrun (NoDup_nil _)) as [Hn Hkeys]. cbn [fst] in *.
    destruct (_ && _).
    + eexists. split; [reflexivity|]. split; [now apply dict_set_NoDup|].
      intros key Hin. rewrite dict_set_keys in Hin.
      assert (Hcases : In key (map fst m) \/ key = _ATTR).
      { destruct (dict_in _ATTR m); [now left|].
        apply in_app_or in Hin as [Hin|[<-|[]]]; auto. }
      destruct Hcases as [Hm | ->]; [|now left].
      destruct (Hkeys key Hm) as [Hf|H]; [destruct Hf | now right].
    + exists m. split; [reflexivity|]. split; [exact Hn|].
      intros key Hin. destruct (Hkeys key Hin) as [Hf|H]; [destruct Hf | now right].
  - exists []. split; [reflexivity|]. split; [constructor|]. intros key [].
Qed.

(** With the wildcard and the set [om], only reserved keys enter the map. *)
Lemma run_om_keys (otherToks : list string) :
  Py.mem _WILDCARD props = true ->
  String.eqb (lower annotSet) _OM_ANNOT_SET = true ->
  forall st st',
    run otherToks st = Ok st' ->
    forall key, In key (map fst (fst st')) ->
      In key (map fst (fst st)) \/ Py.mem key _OM_NON_ATTRIBUTE_PROPERTIES = true.
Proof.
  intros Hwild Hom. unfold decode_toks.
  induction otherToks as [|tok rest IH]; intros st st' Hrun key Hin; cbn [foldM] in Hrun.
  - injection Hrun as <-. now left.
  - rewrite decode_tok_cases in Hrun.
    destruct (Py.split "=" tok) as [|k [|v [|x r]]]; cbn [bind] in Hrun;
      try (now apply (IH _ _ Hrun)).
    unfold kept, to_attr_bag in Hrun.
    rewrite Hwild, Hom, orb_true_r in Hrun. cbn [andb] in Hrun.
    destruct (Py.mem k _OM_NON_ATTRIBUTE_PROPERTIES) eqn:Hres;
      cbn [negb bind] in Hrun.
    + destruct (IH _ _ Hrun key Hin) as [H|H]; [|now right].
      cbn [fst] in H. rewrite dict_set_keys in H.
      destruct (dict_in k (fst st)); [now left|].
      apply in_app_or in H as [H|[<-|[]]]; [now left | now right].
    + destruct (IH _ _ Hrun key Hin) as [H|H]; [now left | now right].
Qed.

(** X16. With the wildcard in [props] and the annotation set [om], the
    mapping the decoder returns has no key besides [orig], [origAnnotID],
    [parentId] and [attr]. *)
Theorem om_wildcard_keys (other : string) :
  Py.mem _WILDCARD props = true ->
  String.eqb (lower annotSet) _OM_ANNOT_SET = true ->
  exists d,
    GetAQProperties annotSet other props lcProps decodeProps = Ok d
    /\ forall key, In key (map fst d) -> In key [_ORIG; _ORIG_ANNOT_ID; _PARENT_ID; _ATTR].
Proof.
  intros Hwild Hom. unfold GetAQProperties.
  assert (Hprops : Nat.ltb 0 (List.length props) = true).
  { destruct props; [discriminate | reflexivity]. }
  rewrite Hprops.
  destruct (decode_toks_total annotSet props lcProps decodeProps
              (Py.split "&" other) empty_state) as [[m buf] Hrun].
  rewrite Hrun. cbn [bind].
  assert (Hm : forall key, In key (map fst m) ->
                 In key [_ORIG; _ORIG_ANNOT_ID; _PARENT_ID; _ATTR]).
  { intros key Hin.
    destruct (run_om_keys _ Hwild Hom _ _ Hrun key Hin) as [Hf|Hres]; [destruct Hf|].
    apply mem_In in Hres. simpl in Hres. simpl. tauto. }
  destruct (_ && _).
  - eexists. split; [reflexivity|].
    intros key Hin. rewrite dict_set_keys in Hin.
    destruct (dict_in _ATTR m); [now apply Hm|].
    apply in_app_or in Hin as [Hin|[<-|[]]]; [now apply Hm | simpl; tauto].
  - exists m. split; [reflexivity | exact Hm].
Qed.

End DecoderLookup.

(** ** Encoding what was decoded *)

Section Reencode.
Context {L : PyLib} {Laws : PyLibLaws L}.
Variables (annotSet : string) (props codeProps : list string).

Lemma restrict_idem (d : dict) : restrict props (restrict props d) = restrict props d.
Proof.
  unfold restrict. induction d as [|e d IH]; simpl; [reflexivity|].
  destruct (kept props (fst e)) eqn:E; simpl; [rewrite E; now f_equal | exact IH].
Qed.

(** The decoder reads the kept entries back from the encoder's tokens. *)
Lemma decode_encoded_entries (p : dict) :
  NoDup (map fst p) ->
  (forall entry, In entry p -> kept props (fst entry) = true ->
                 round_trips annotSet props codeProps entry) ->
  GetAQProperties annotSet
    (Py.join "&" (map (encoded_entry codeProps) (restrict props p)))
    props [] codeProps
  = Ok (restrict props p).
Proof.
  intros Hnodup Hok.
  assert (Hall : Forall (fun entry => kept props (fst entry) = true
                          /\ round_trips annotSet props codeProps entry)
                        (restrict props p)).
  { apply Forall_forall. intros entry Hin.
    apply filter_In in Hin as [Hin Hkept]. auto. }
  assert (Hkeys : NoDup (map fst (restrict props p))) by now apply NoDup_keys_filter.
  unfold GetAQProperties.
  destruct (restrict props p) as [|entry entries].
  - destruct (Nat.ltb 0 (List.length props)); reflexivity.
  - assert (Hprops : Nat.ltb 0 (List.length props) = true).
    { inversion Hall as [|? ? [Hkept _] _]; subst.
      unfold kept in Hkept. destruct props; [discriminate | reflexivity]. }
    rewrite Hprops, split_join.
    + rewrite (run_encoded annotSet props codeProps (entry :: entries) empty_state Hall Hkeys);
        reflexivity.
    + discriminate.
    + apply Forall_forall. intros tok Hin.
      apply in_map_iff in Hin as (e & <- & Hin).
      apply (encoded_entry_no_amp annotSet props).
      rewrite Forall_forall in Hall. now apply Hall.
Qed.

(** X4. Under the conditions of the round trip (one list to encode and to
    decode, no lower-casing, no kept entry routed to the attribute buffer, no
    delimiter in a key or in a value written as it stands), encoding the
    mapping that was decoded from an encoded string gives that string
    again. *)
Theorem reencode_reproduces (p : dict) :
  NoDup (map fst p) ->
  (forall entry, In entry p -> kept props (fst entry) = true ->
                 round_trips annotSet props codeProps entry) ->
  exists other d,
    GetCATProperties (Some p) props codeProps = Some other
    /\ GetAQProperties annotSet other props [] codeProps = Ok d
    /\ GetCATProperties (Some d) props codeProps = Some other.
Proof.
  intros Hnodup Hok.
  exists (Py.join "&" (map (encoded_entry codeProps) (restrict props p))),
         (restrict props p).
  split; [apply GetCATProperties_Some|].
  split; [now apply decode_encoded_entries|].
  now rewrite GetCATProperties_Some, restrict_idem.
Qed.

(** X5. Under the same conditions the encoder tells mappings apart: two
    mappings that encode to the same string have the same kept entries, in
    the same order. *)
Theorem encoder_injective (p q : dict) :
  NoDup (map fst p) -> NoDup (map fst q) ->
  (forall entry, In entry p -> kept props (fst entry) = true ->
                 round_trips annotSet props codeProps entry) ->
  (forall entry, In entry q -> kept props (fst entry) = true ->
                 round_trips annotSet props codeProps entry) ->
  GetCATProperties (Some p) props codeProps = GetCATProperties (Some q) props codeProps ->
  restrict props p = restrict props q.
Proof.
  intros Hp Hq Hokp Hokq Heq.
  rewrite !GetCATProperties_Some in Heq. injection Heq as Heq.
  pose proof (decode_encoded_entries p Hp Hokp) as Hdp.
  pose proof (decode_encoded_entries q Hq Hokq) as Hdq.
  rewrite Heq in Hdp. congruence.
Qed.

End Reencode.

(** ** The hydrator, call by call *)

Lemma string_length_app (a b : string) :
  String.length (a ++ b) = (String.length a + String.length b)%nat.
Proof. induction a as [|c a IH]; simpl; [reflexivity | now rewrite IH]. Qed.

Lemma substring_length (n m : nat) (s : string) :
  String.length (substring n m s) = Nat.min m (String.length s - n).
Proof.
  revert n m. induction s as [|c s IH]; intros [|n] [|m]; simpl;
    try reflexivity; try (rewrite IH; simpl; lia).
Qed.

(** A slice between two positions of the text, in order, has as many
    characters as there are positions between them. *)
Lemma slice_length (s : string) (a b : Z) :
  0 <= a <= b -> b <= Z.of_nat (String.length s) ->
  Z.of_nat (String.length (Py.slice s a b)) = b - a.
Proof.
  intros Hab Hb. unfold Py.slice, Py.clip.
  destruct (Z.ltb_spec a 0), (Z.ltb_spec b 0); try lia.
  rewrite substring_length. lia.
Qed.

Lemma HydrateText_read (fs fs' : filesystem) (docId txtPath docText : string)
    (startOffset endOffset : Z) (properties : option dict) (excludes : bool) :
  read_docText fs docId txtPath = (Ok docText, fs') ->
  HydrateText fs docId startOffset endOffset properties txtPath excludes
  = (hydrated docText startOffset endOffset properties excludes, fs').
Proof.
  intros Hread. unfold HydrateText, hydrated. rewrite Hread.
  destruct (String.eqb docText EmptyString || has_key properties "text");
    [reflexivity|].
  destruct (annotation_text docText startOffset endOffset properties excludes);
    [|reflexivity].
  now destruct properties.
Qed.


(** X6. Without a copy under [/tmp/], a source file that cannot be read
    makes [HydrateText] return the properties it was given, whatever they
    are, and leave the file system as it was. *)
Theorem unreadable_source_degrades (fs : filesystem) (docId txtPath : string)
    (startOffset endOffset : Z) (properties : option dict) (excludes : bool) (e : exn) :
  path_exists fs ("/tmp/" ++ docId) = false ->
  read_file fs (txtPath ++ docId) = Raise e ->
  HydrateText fs docId startOffset endOffset properties txtPath excludes
  = (Ok properties, fs).
Proof.
  intros Hnone Hsrc.
  apply HydrateText_short_circuit with (docText := EmptyString); [|now left].
  unfold read_docText. now rewrite Hnone, Hsrc.
Qed.


(** X8. Without a copy under [/tmp/], a call that reads the source file
    and can write the copy leaves the document text under [/tmp/]; from
    then on the result of the call no longer depends on [txtPath], and
    further calls change nothing in the file system. *)
Theorem first_call_fills_cache (fs : filesystem) (docId txtPath docText : string)
    (startOffset endOffset : Z) (properties : option dict) (excludes : bool) :
  path_exists fs ("/tmp/" ++ docId) = false ->
  read_file fs (txtPath ++ docId) = Ok docText ->
  writable fs ("/tmp/" ++ docId) = true ->
  exists r fs',
    HydrateText fs docId startOffset endOffset properties txtPath excludes = (r, fs')
    /\ read_file fs' ("/tmp/" ++ docId) = Ok docText
    /\ forall txtPath',
         HydrateText fs' docId startOffset endOffset properties txtPath' excludes
         = (r, fs').
Proof.
  intros Hnone Hsrc Hwrite.
  set (fs' := {| node_at := fun p => if String.eqb p ("/tmp/" ++ docId)
                                     then Text docText else node_at fs p;
                 writable := writable fs |}).
  assert (Hfirst : read_docText fs docId txtPath = (Ok docText, fs')).
  { unfold read_docText, write_file. now rewrite Hnone, Hsrc, Hwrite. }
  assert (Hcopy : read_file fs' ("/tmp/" ++ docId) = Ok docText).
  { unfold read_file, fs'. cbn [node_at]. now rewrite String.eqb_refl. }
  exists (hydrated docText startOffset endOffset properties excludes), fs'.
  split; [now apply HydrateText_read|]. split; [exact Hcopy|].
  intros txtPath'. apply HydrateText_read.
  unfold read_docText, path_exists. unfold read_file in Hcopy.
  destruct (node_at fs' ("/tmp/" ++ docId)); try discriminate.
  unfold read_file. cbn [node_at fs'] in *. rewrite String.eqb_refl. reflexivity.
Qed.


(** X10. [HydrateText] touches nothing but the [text] key and the copy under
    [/tmp/]: every other key of the properties is bound as before, every
    other path of the file system is as before, and what can be written
    is unchanged. *)
Theorem hydrate_frame (fs fs' : filesystem) (docId txtPath : string)
    (startOffset endOffset : Z) (properties r : option dict) (excludes : bool) :
  HydrateText fs docId startOffset endOffset properties txtPath excludes
  = (Ok r, fs') ->
  (forall key, key <> "text"%string -> prop_get key r = prop_get key properties)
  /\ (forall path, path <> ("/tmp/" ++ docId)%string ->
                   node_at fs' path = node_at fs path)
  /\ (forall path, writable fs' path = writable fs path).
Proof.
  intros Hcall.
  destruct (read_docText fs docId txtPath) as [[docText|e] fs1] eqn:Hread.
  - rewrite (HydrateText_read _ _ _ _ _ _ _ _ _ Hread) in Hcall.
    pose proof (f_equal fst Hcall) as Hr. pose proof (f_equal snd Hcall) as Hfs.
    cbn [fst snd] in Hr, Hfs. subst fs1. split.
    + intros key Hkey. unfold hydrated in Hr.
      destruct (String.eqb docText EmptyString || has_key properties "text").
      * assert (r = properties) by congruence. now subst r.
      * destruct (annotation_text docText startOffset endOffset properties excludes)
          as [text|e]; [|discriminate].
        assert (Hset : r = Some (dict_set (dict_of properties) "text" text))
          by congruence.
        subst r. unfold prop_get. cbn [dict_of].
        apply dict_get_set_other. congruence.
    + unfold read_docText in Hread.
      destruct (path_exists fs ("/tmp/" ++ docId)).
      { assert (fs' = fs) by congruence. subst fs'. auto. }
      destruct (read_file fs (txtPath ++ docId)) as [c|e].
      2:{ assert (fs' = fs) by congruence. subst fs'. auto. }
      unfold write_file in Hread.
      destruct (writable fs ("/tmp/" ++ docId)).
      2:{ assert (fs' = fs) by congruence. subst fs'. auto. }
      assert (Hfs' : fs' = {| node_at := fun p => if String.eqb p ("/tmp/" ++ docId)
                                                  then Text c else node_at fs p;
                              writable := writable fs |}) by congruence.
      subst fs'. cbn [node_at writable]. split; [|reflexivity].
      intros path Hpath. apply String.eqb_neq in Hpath. now rewrite Hpath.
  - unfold HydrateText in Hcall. rewrite Hread in Hcall. discriminate.
Qed.

(** X11. With a non-empty document text and no [text] key, when the
    exclusions are not asked for, or the properties hold no [excludes], or
    an empty one, the text stored is the slice of the document from
    [startOffset] to [endOffset]: whatever [excludes] holds is not parsed,
    and for a span inside the document the text has [endOffset -
    startOffset] characters. *)
Theorem plain_text (fs fs' : filesystem) (docId txtPath docText : string)
    (startOffset endOffset : Z) (properties : option dict) (excludes : bool) :
  read_docText fs docId txtPath = (Ok docText, fs') ->
  docText <> EmptyString ->
  has_key properties "text" = false ->
  excludes = false \/ prop_get "excludes" properties = None
  \/ prop_get "excludes" properties = Some EmptyString ->
  HydrateText fs docId startOffset endOffset properties txtPath excludes
  = (Ok (Some (dict_set (dict_of properties) "text"
                 (Py.slice docText startOffset endOffset))), fs')
  /\ (0 <= startOffset <= endOffset ->
      endOffset <= Z.of_nat (String.length docText) ->
      Z.of_nat (String.length (Py.slice docText startOffset endOffset))
      = endOffset - startOffset).
Proof.
  intros Hread Hdoc Htext Hplain.
  split; [|now apply slice_length].
  rewrite (HydrateText_read _ _ _ _ _ _ _ _ _ Hread). f_equal.
  unfold hydrated. apply String.eqb_neq in Hdoc. rewrite Hdoc, Htext. cbn [orb].
  assert (Hann : annotation_text docText startOffset endOffset properties excludes
                 = Ok (Py.slice docText startOffset endOffset)).
  { unfold annotation_text, prop_get in *.
    destruct properties as [d|]; [|reflexivity]. cbn [dict_of] in Hplain.
    destruct (dict_get "excludes" d) as [value|]; [|reflexivity].
    destruct Hplain as [-> | [H | H]]; [reflexivity | discriminate |].
    injection H as ->. now rewrite andb_false_r. }
  now rewrite Hann.
Qed.

Lemma laid_out_bound (curOffset endOffset : Z) (pairs : list (Z * Z)) :
  laid_out curOffset endOffset pairs = true -> curOffset <= endOffset.
Proof.
  revert curOffset. induction pairs as [|[exS exE] rest IH]; intros cur; cbn [laid_out fst snd].
  - apply Z.leb_le.
  - intros H. apply andb_prop in H as [H Hrest]. apply andb_prop in H as [H1 H2].
    apply Z.leb_le in H1, H2. specialize (IH _ Hrest). lia.
Qed.

Lemma sweep_length (docText : string) (endOffset : Z) (pairs : list (Z * Z)) :
  endOffset <= Z.of_nat (String.length docText) ->
  forall text curOffset,
    0 <= curOffset ->
    laid_out curOffset endOffset pairs = true ->
    Z.of_nat (String.length
      (let '(text', curOffset') :=
         fold_left (sweep_step docText) pairs (text, curOffset) in
       if curOffset' <? endOffset
       then (text' ++ Py.slice docText curOffset' endOffset)%string
       else text'))
    = Z.of_nat (String.length text) + (endOffset - curOffset) - excluded_length pairs.
Proof.
  intros Hend. induction pairs as [|[exS exE] rest IH]; intros text cur Hcur Hlaid;
    cbn [fold_left laid_out excluded_length fst snd] in *.
  - apply Z.leb_le in Hlaid.
    destruct (Z.ltb_spec cur endOffset); [|lia].
    rewrite string_length_app, Nat2Z.inj_add, slice_length; lia.
  - apply andb_prop in Hlaid as [H Hrest]. apply andb_prop in H as [H1 H2].
    apply Z.leb_le in H1, H2.
    pose proof (laid_out_bound _ _ _ Hrest) as Hbound.
    unfold sweep_step at 2. cbn [fst snd].
    destruct (Z.leb_spec exS cur).
    + rewrite (IH text exE ltac:(lia) Hrest). lia.
    + rewrite (IH _ exE ltac:(lia) Hrest).
      rewrite string_length_app, Nat2Z.inj_add, slice_length; lia.
Qed.

(** X12. When the exclusion pairs lie inside the span one after the other
    and the span lies inside the document, the text left has as many
    characters as the span has positions, less the positions the pairs
    exclude. *)
Theorem excluded_text_length (docText : string) (startOffset endOffset : Z)
    (pairs : list (Z * Z)) :
  0 <= startOffset ->
  endOffset <= Z.of_nat (String.length docText) ->
  laid_out startOffset endOffset pairs = true ->
  Z.of_nat (String.length (excluded_text docText startOffset endOffset pairs))
  = (endOffset - startOffset) - excluded_length pairs.
Proof.
  intros Hstart Hend Hlaid. unfold excluded_text, sweep.
  rewrite (sweep_length docText endOffset pairs Hend EmptyString startOffset Hstart Hlaid).
  simpl. lia.
Qed.

(** X13. The pairs the sweep runs over depend only on which offset pairs
    occur among the entries: the order of the entries, their repeats and
    their first three fields make no difference to the text. *)
Theorem exToks_pairs_only (excludes excludes' : list exclude) :
  (forall p, In p (map (fun e : exclude => (snd (fst e), snd e)) excludes)
             <-> In p (map (fun e : exclude => (snd (fst e), snd e)) excludes')) ->
  exToks excludes = exToks excludes'
  /\ forall docText startOffset endOffset,
       excluded_text docText startOffset endOffset (exToks excludes)
       = excluded_text docText startOffset endOffset (exToks excludes').
Proof.
  intros Hsame.
  assert (Heq : exToks excludes = exToks excludes').
  { unfold exToks. apply sort_pairs_perm_invariant, NoDup_Permutation;
      try apply NoDup_nodup.
    intros p. rewrite !nodup_In.
    assert (Hin : forall l : list exclude,
               In p (map (fun e : exclude => (snd (fst e), snd e)) (nodup exclude_eq_dec l))
               <-> In p (map (fun e : exclude => (snd (fst e), snd e)) l)).
    { intros l. rewrite !in_map_iff.
      split; intros (e & He & Hl); exists e; split; try assumption;
        now apply nodup_In in Hl || apply nodup_In. }
    rewrite !Hin. apply Hsame. }
  split; [exact Heq|]. intros. now rewrite Heq.
Qed.

(** *** Parsing, entry by entry *)

Lemma parse_exclude_fields (excludesEntry : string) (kind : Z) (a b : string)
    (exS exE : Z) :
  parse_exclude excludesEntry = Ok (kind, a, b, exS, exE)
  <-> exists t0 t3 t4 more,
        Py.split "," excludesEntry = t0 :: a :: b :: t3 :: t4 :: more
        /\ Py.int t0 = Ok kind /\ Py.int t3 = Ok exS /\ Py.int t4 = Ok exE.
Proof.
  unfold parse_exclude, Py.get.
  destruct (Py.split "," excludesEntry) as [|t0 [|t1 [|t2 [|t3 [|t4 more]]]]];
    cbn [nth_error bind].
  1-5: split; [repeat destruct_int; discriminate
              | intros (? & ? & ? & ? & H & _); discriminate].
  split.
  - repeat destruct_int; try discriminate.
    intros H. injection H as <- <- <- <- <-.
    exists t0, t3, t4, more. auto.
  - intros (u0 & u3 & u4 & more' & H & H0 & H3 & H4).
    injection H as <- <- <- <- <- <-.
    now rewrite H0, H3, H4.
Qed.

Lemma parse_loop (entries : list string) (acc out : list exclude) :
  foldM (fun excludes excludesEntry =>
           e <- parse_exclude excludesEntry ;; Ok (excludes ++ [e])) entries acc
  = Ok out
  <-> exists parsed,
        Forall2 (fun entry e => parse_exclude entry = Ok e) entries parsed
        /\ out = acc ++ parsed.
Proof.
  revert acc. induction entries as [|entry entries IH]; intros acc; cbn [foldM].
  - split.
    + intros H. injection H as <-. exists []. split; [constructor | now rewrite app_nil_r].
    + intros (parsed & Hall & ->). inversion Hall; subst. now rewrite app_nil_r.
  - destruct (parse_exclude entry) as [e|err] eqn:He; cbn [bind].
    + rewrite IH. split.
      * intros (parsed & Hall & ->). exists (e :: parsed).
        split; [now constructor | now rewrite <- app_assoc].
      * intros (parsed & Hall & ->). inversion Hall as [|? e' ? parsed' He' Hrest]; subst.
        assert (e' = e) by congruence. subst e'.
        exists parsed'. split; [exact Hrest | now rewrite <- app_assoc].
    + split; [discriminate|].
      intros (parsed & Hall & _). inversion Hall; subst. congruence.
Qed.

(** X15. The exclusions parse exactly when every entry between [|] has at
    least five comma-separated fields of which fields 0, 3 and 4 are
    integers; the result then lists one tuple per entry, in the order of the
    entries and with their repeats, and fields after the fifth are
    ignored. *)
Theorem parse_excludes_entries (value : string) (parsed : list exclude) :
  (parse_excludes value = Ok parsed
   <-> Forall2 (fun entry e => parse_exclude entry = Ok e) (Py.split "|" value) parsed)
  /\ forall entry kind a b exS exE,
       parse_exclude entry = Ok (kind, a, b, exS, exE)
       <-> exists t0 t3 t4 more,
             Py.split "," entry = t0 :: a :: b :: t3 :: t4 :: more
             /\ Py.int t0 = Ok kind /\ Py.int t3 = Ok exS /\ Py.int t4 = Ok exE.
Proof.
  split; [|intros; apply parse_exclude_fields].
  unfold parse_excludes. rewrite parse_loop. cbn [app].
  split.
  - now intros (l & Hall & ->).
  - intros Hall. eauto.
Qed.

(** *** What can raise *)

(** X17. When the exclusions are not asked for, [HydrateText] raises only
    if a copy under [/tmp/] exists and cannot be read: otherwise it returns
    properties, whatever the span, the properties given and the state of the
    source file. *)
Theorem hydrate_without_excludes_returns (fs : filesystem) (docId txtPath : string)
    (startOffset endOffset : Z) (properties : option dict) :
  (forall e, node_at fs ("/tmp/" ++ docId) <> Unreadable e) ->
  exists r fs',
    HydrateText fs docId startOffset endOffset properties txtPath false
    = (Ok r, fs').
Proof.
  intros Hcopy.
  assert (Hread : exists docText fs', read_docText fs docId txtPath = (Ok docText, fs')).
  { destruct (path_exists fs ("/tmp/" ++ docId)) eqn:Hexists.
    - unfold read_docText. rewrite Hexists.
      unfold path_exists in Hexists. unfold read_file.
      destruct (node_at fs ("/tmp/" ++ docId)) as [|c|e]; [discriminate | eauto |].
      now elim (Hcopy e).
    - destruct (source_failures_caught fs docId txtPath Hexists) as (c & fs' & H & _).
      eauto. }
  destruct Hread as (docText & fs' & Hread).
  rewrite (HydrateText_read _ _ _ _ _ _ _ _ _ Hread). unfold hydrated.
  destruct (String.eqb docText EmptyString || has_key properties "text"); [eauto|].
  assert (Hann : annotation_text docText startOffset endOffset properties false
                 = Ok (Py.slice docText startOffset endOffset)).
  { unfold annotation_text. destruct properties as [d|]; [|reflexivity].
    now destruct (dict_get "excludes" d). }
  rewrite Hann. eauto.
Qed.

(** * Further runs *)

(** X1 on the string [a=1&b=2] with only [b] asked for. *)
Lemma decoder_plain_lookup_run :
  exists d,
    @GetAQProperties AsciiLib.lib "x" "a=1&b=2" ["b"] [] [] = Ok d
    /\ dict_get "b" d = Some "2" /\ dict_get "a" d = None.
Proof.
  destruct (@decoder_plain_lookup AsciiLib.lib "x" ["b"] [] [] "a=1&b=2" eq_refl)
    as (d & Hd & Hget).
  exists d. split; [exact Hd|]. split; [exact (Hget "b") | exact (Hget "a")].
Defined.

(** X2 with [attr] and [b] asked for in the set [om]. *)
Lemma attr_marker_rule_run :
  exists d,
    @GetAQProperties AsciiLib.lib "om" "a=1&b=2&orig=X&c=3" ["attr"; "b"] [] [] = Ok d
    /\ dict_get "attr" d = Some "a=1&c=3" /\ dict_get "b" d = Some "2".
Proof.
  destruct (@attr_marker_rule AsciiLib.lib "om" ["attr"; "b"] [] [] "a=1&b=2&orig=X&c=3"
              eq_refl eq_refl eq_refl) as (d & Hd & Hattr & Hget).
  exists d. split; [exact Hd|]. split; [exact Hattr|].
  apply (Hget "b"). discriminate.
Defined.

(** X4 on a mapping with a percent-coded value. *)
Lemma reencode_reproduces_run :
  exists other d,
    @GetCATProperties AsciiLib.lib (Some [("a", "1 & 2"); ("b", "x")]) ["*"] ["a"]
    = Some other
    /\ @GetAQProperties AsciiLib.lib "x" other ["*"] [] ["a"] = Ok d
    /\ @GetCATProperties AsciiLib.lib (Some d) ["*"] ["a"] = Some other.
Proof.
  apply (@reencode_reproduces AsciiLib.lib ascii_laws "x" ["*"] ["a"]
           [("a", "1 & 2"); ("b", "x")]).
  - repeat constructor; simpl; intuition discriminate.
  - intros entry [<-|[<-|[]]] _; unfold round_trips; simpl; repeat split;
      intros; discriminate.
Defined.

(** X5 on two mappings that differ only in a key that is not kept. *)
Lemma encoder_injective_run :
  restrict ["a"] [("a", "1"); ("c", "x")] = restrict ["a"] [("a", "1"); ("d", "y")].
Proof.
  apply (@encoder_injective AsciiLib.lib ascii_laws "x" ["a"] []
           [("a", "1"); ("c", "x")] [("a", "1"); ("d", "y")]);
    try (repeat constructor; simpl; intuition discriminate);
    try reflexivity;
    intros entry [<-|[<-|[]]] Hkept; try discriminate Hkept;
      unfold round_trips; simpl; repeat split; intros; discriminate.
Defined.

(** X6 on a file system without the document. *)
Lemma unreadable_source_degrades_run :
  HydrateText (source_fs "/txt/other" "0123456789" true) "doc" 0 5
    (Some [("orig", "x")]) "/txt/" true
  = (Ok (Some [("orig", "x")]), source_fs "/txt/other" "0123456789" true).
Proof.
  apply (unreadable_source_degrades _ _ _ _ _ _ _ OSError); reflexivity.
Defined.


(** X8 on a file system that holds the source file only. *)
Lemma first_call_fills_cache_run :
  exists r fs',
    HydrateText (source_fs "/txt/doc" "0123456789" true) "doc" 2 5 None "/txt/" true
    = (r, fs')
    /\ read_file fs' "/tmp/doc" = Ok "0123456789"
    /\ forall txtPath', HydrateText fs' "doc" 2 5 None txtPath' true = (r, fs').
Proof.
  apply (first_call_fills_cache (source_fs "/txt/doc" "0123456789" true)
           "doc" "/txt/" "0123456789" 2 5 None true); reflexivity.
Defined.


(** X10 on a call that writes the copy and sets [text]. *)
Lemma hydrate_frame_run :
  prop_get "orig" (Some [("orig", "x"); ("text", "234")]) = Some "x"
  /\ node_at (snd (HydrateText (source_fs "/txt/doc" "0123456789" true) "doc" 2 5
                     (Some [("orig", "x")]) "/txt/" true)) "/txt/doc"
     = Text "0123456789".
Proof.
  destruct (hydrate_frame (source_fs "/txt/doc" "0123456789" true)
              (snd (HydrateText (source_fs "/txt/doc" "0123456789" true) "doc" 2 5
                      (Some [("orig", "x")]) "/txt/" true))
              "doc" "/txt/" 2 5 (Some [("orig", "x")])
              (Some [("orig", "x"); ("text", "234")]) true eq_refl)
    as (Hkeys & Hpaths & _).
  split.
  - rewrite (Hkeys "orig"); [reflexivity | discriminate].
  - rewrite (Hpaths "/txt/doc"); [reflexivity | discriminate].
Defined.

(** X11 on a call that is told not to apply a malformed [excludes]. *)
Lemma plain_text_run :
  HydrateText (cached_fs "doc" "0123456789") "doc" 2 5
    (Some [("excludes", "not,an,entry")]) "/txt/" false
  = (Ok (Some [("excludes", "not,an,entry"); ("text", "234")]),
     cached_fs "doc" "0123456789").
Proof.
  apply (plain_text (cached_fs "doc" "0123456789") (cached_fs "doc" "0123456789")
           "doc" "/txt/" "0123456789" 2 5 (Some [("excludes", "not,an,entry")]) false);
    try reflexivity; [discriminate | now left].
Defined.

(** X12 on two exclusions inside the span. *)
Lemma excluded_text_length_run :
  Z.of_nat (String.length (excluded_text "0123456789" 1 9 [(2, 4); (6, 7)])) = 5.
Proof.
  apply (excluded_text_length "0123456789" 1 9 [(2, 4); (6, 7)]);
    [lia | simpl; lia | reflexivity].
Defined.

(** X13 on entries given in another order, with a repeat and other
    labels. *)
Lemma exToks_pairs_only_run :
  exToks [(0, "a", "b", 6, 8); (0, "a", "b", 2, 4)]
  = exToks [(1, "c", "d", 2, 4); (2, "e", "f", 6, 8); (3, "g", "h", 2, 4)].
Proof.
  apply (exToks_pairs_only [(0, "a", "b", 6, 8); (0, "a", "b", 2, 4)]
           [(1, "c", "d", 2, 4); (2, "e", "f", 6, 8); (3, "g", "h", 2, 4)]).
  intros p. simpl. intuition.
Defined.

(** X16 on a string with a reserved key and two others. *)
Lemma om_wildcard_keys_run :
  exists d,
    @GetAQProperties AsciiLib.lib "Om" "a=1&orig=X&c=3" ["*"] [] [] = Ok d
    /\ forall key, In key (map fst d) -> In key [_ORIG; _ORIG_ANNOT_ID; _PARENT_ID; _ATTR].
Proof.
  exact (@om_wildcard_keys AsciiLib.lib "Om" ["*"] [] [] "a=1&orig=X&c=3" eq_refl eq_refl).
Defined.

(** X17 on a malformed [excludes] and a source file that is missing. *)
Lemma hydrate_without_excludes_returns_run :
  exists r fs',
    HydrateText (source_fs "/txt/other" "0123456789" true) "doc" 2 5
      (Some [("excludes", "not,an,entry")]) "/txt/" false
    = (Ok r, fs').
Proof.
  apply (hydrate_without_excludes_returns (source_fs "/txt/other" "0123456789" true)).
  intros e. simpl. discriminate.
Defined.
